(** * wtdbm: a mapping interface over one WiredTiger table

    Shallow embedding of [src/wtdbm/wtdbm.py] and verification of its
    specification.  Python code is read as state-passing functions over the
    state of the storage engine; a Python exception is a [Raise] result that
    keeps the state reached so far. *)

From Stdlib Require Import ZArith String Ascii DecimalString Sorted.
From stdpp Require Import base gmap strings list fin_maps.

Open Scope Z_scope.
Open Scope string_scope.

(** ** Python values and exceptions *)

(** Python [bytes]: a sequence of 8-bit characters. *)
Abbreviation bytes := string (only parsing).

Inductive pyval :=
| PyBytes (b : bytes)
| PyStr (s : list N)          (* text, as its sequence of code points *)
| PyNone
| PyInt (n : Z)
| PyDefault.                  (* the module-level object [_DEFAULT = object()] *)

Inductive exn :=
| WiredTigerError (msg : string)   (* wiredtiger.WiredTigerError, the engine's own exception *)
| error (msg : string)             (* class error(Exception) of the module *)
| KeyError (key : pyval)           (* KeyError(f"{key} not found") *)
| TypeError (v : pyval)
| UnicodeEncodeError
| ValueError (msg : string)
| AssertionError
| RuntimeError (msg : string)
| SystemExit (msg : string).

Inductive result (A : Type) :=
| Ok (a : A)
| Raise (e : exn).
Arguments Ok {A} a.
Arguments Raise {A} e.

Definition string_of_Z (z : Z) : string := NilZero.string_of_int (Z.to_int z).

(** ** The storage engine *)

(** Modelled from the spec: the storage engine collaborator (the [wiredtiger]
    package, which is not part of the repository).  It exposes what section 1
    of the specification lists: open/close of a connection and of a session,
    create/drop of the table, cursors with an overwrite policy, the cursor
    operations search, insert, remove and next, and transactions.  Every call
    either returns a status ([0], [WT_NOTFOUND], another code) or raises the
    engine's exception with a message.  A [script] of injected faults, read
    one entry per engine call, makes any call fail in either way; every call
    is appended to [log] with its outcome. *)
Module Engine.

Definition WT_NOTFOUND : Z := -31803.
Definition ENOENT : string := "No such file or directory".
Definition ENOTSUP : string := "Operation not supported".
Definition EINVAL : string := "Invalid argument".
Definition EBUSY : string := "Device or resource busy".
Definition WT_DUPLICATE_KEY : string :=
  "WT_DUPLICATE_KEY: attempt to insert an existing key".

Inductive location := NoDirectory | EmptyDirectory | Database.

Inductive fault :=
| FaultRaise (msg : string)
| FaultCode (code : Z).

Inductive outcome :=
| Returned (code : Z)
| Raised (msg : string).

Inductive call :=
| CallWiredtigerOpen (config : string)
| CallOpenSession
| CallOpenCursor (overwrite : bool)
| CallCreate
| CallDrop (force : bool)
| CallSearch (k : option bytes)
| CallInsert (k v : option bytes)
| CallRemove (k : option bytes)
| CallNext
| CallCursorClose
| CallBeginTransaction
| CallCommitTransaction
| CallRollbackTransaction
| CallSessionClose
| CallConnClose.

Record state := mkState {
  home : location;                          (* what is at the database path *)
  table : option (gmap string string);      (* table:wtdbm as the session sees it *)
  conn : bool;                              (* the connection is open *)
  readonly : bool;                          (* ... and was opened read-only *)
  session : bool;                           (* the session is open *)
  txn : option (option (gmap string string)); (* running transaction: the table when it began *)
  cursors : nat;                            (* cursors currently open *)
  script : list (option fault);             (* injected faults, one entry per call *)
  log : list (call * outcome)               (* every call made so far, oldest first *)
}.

Definition set_home (x : location) (s : state) : state :=
  mkState x (table s) (conn s) (readonly s) (session s) (txn s) (cursors s) (script s) (log s).
Definition set_table (x : option (gmap string string)) (s : state) : state :=
  mkState (home s) x (conn s) (readonly s) (session s) (txn s) (cursors s) (script s) (log s).
Definition set_conn (x ro : bool) (s : state) : state :=
  mkState (home s) (table s) x ro (session s) (txn s) (cursors s) (script s) (log s).
Definition set_session (x : bool) (s : state) : state :=
  mkState (home s) (table s) (conn s) (readonly s) x (txn s) (cursors s) (script s) (log s).
Definition set_txn (x : option (option (gmap string string))) (s : state) : state :=
  mkState (home s) (table s) (conn s) (readonly s) (session s) x (cursors s) (script s) (log s).
Definition set_cursors (x : nat) (s : state) : state :=
  mkState (home s) (table s) (conn s) (readonly s) (session s) (txn s) x (script s) (log s).
Definition set_script (x : list (option fault)) (s : state) : state :=
  mkState (home s) (table s) (conn s) (readonly s) (session s) (txn s) (cursors s) x (log s).
Definition record (c : call) (o : outcome) (s : state) : state :=
  mkState (home s) (table s) (conn s) (readonly s) (session s) (txn s) (cursors s) (script s)
          (log s ++ [(c, o)]).

(** One engine call: the next script entry decides whether the call behaves
    normally or fails as injected; a failed call changes nothing but the
    script and the log.  A call that returns a handle has no status to
    return, and status [0] is no failure: a [FaultCode] entry leaves such a
    call to behave normally. *)
Definition perform {X : Type} (c : call) (returns_handle : bool) (x : X)
    (normal : state → outcome * X * state) (s : state) : outcome * X * state :=
  let '(o, x', s') :=
    match script s with
    | [] => normal s
    | None :: rest => normal (set_script rest s)
    | Some (FaultRaise msg) :: rest => (Raised msg, x, set_script rest s)
    | Some (FaultCode code) :: rest =>
        if returns_handle || Z.eqb code 0 then normal (set_script rest s)
        else (Returned code, x, set_script rest s)
    end in
  (o, x', record c o s').

(** *** Connection and session *)

Definition wiredtiger_open (config : string) : state → outcome * unit * state :=
  perform (CallWiredtigerOpen config) true ()
    (λ s,
      if conn s then (Raised EBUSY, (), s)
      else if String.prefix "create" config then
        match home s with
        | NoDirectory => (Raised ENOENT, (), s)
        | _ => (Returned 0, (), set_conn true false (set_home Database s))
        end
      else
        match home s with
        | Database => (Returned 0, (), set_conn true (String.prefix "readonly" config) s)
        | _ => (Raised ENOENT, (), s)
        end).

Definition open_session : state → outcome * unit * state :=
  perform CallOpenSession true ()
    (λ s,
      if negb (conn s) then (Raised EINVAL, (), s)
      else if session s then (Raised EBUSY, (), s)
      else (Returned 0, (), set_session true s)).

(** Closing a session rolls its running transaction back and releases its
    cursors. *)
Definition release_session (s : state) : state :=
  let s := match txn s with
           | Some snapshot => set_txn None (set_table snapshot s)
           | None => s
           end in
  set_cursors 0 (set_session false s).

(** [close] of a session and of a connection.  The specification does not
    say what [close] does on an object that was closed before.  The Python
    binding clears the handle of an object when it is closed, and refuses a
    [close] called on that object again itself: the call never reaches the
    engine, reads no script entry and leaves no log entry.  [None] is that
    refusal. *)
Definition session_close : state → option (outcome * unit * state) := λ s,
  if session s then
    Some (perform CallSessionClose false ()
            (λ s, (Returned 0, (), release_session s)) s)
  else None.

Definition conn_close : state → option (outcome * unit * state) := λ s,
  if conn s then
    Some (perform CallConnClose false ()
            (λ s, (Returned 0, (),
                   set_conn false false (if session s then release_session s else s))) s)
  else None.

(** *** Schema *)

Definition create : state → outcome * unit * state :=
  perform CallCreate false ()
    (λ s,
      if negb (session s) then (Raised EINVAL, (), s)
      else if readonly s then (Raised ENOTSUP, (), s)
      else match table s with
           | Some _ => (Returned 0, (), s)           (* exclusive=false *)
           | None => (Returned 0, (), set_table (Some ∅) s)
           end).

Definition drop (force : bool) : state → outcome * unit * state :=
  perform (CallDrop force) false ()
    (λ s,
      if negb (session s) then (Raised EINVAL, (), s)
      else if readonly s then (Raised ENOTSUP, (), s)
      else match table s with
           | Some _ => (Returned 0, (), set_table None s)
           | None => if force then (Returned 0, (), s) else (Raised ENOENT, (), s)
           end).

(** *** Transactions *)

Definition begin_transaction : state → outcome * unit * state :=
  perform CallBeginTransaction false ()
    (λ s,
      if negb (session s) then (Raised EINVAL, (), s)
      else match txn s with
           | Some _ => (Raised EINVAL, (), s)
           | None => (Returned 0, (), set_txn (Some (table s)) s)
           end).

Definition commit_transaction : state → outcome * unit * state :=
  perform CallCommitTransaction false ()
    (λ s,
      if negb (session s) then (Raised EINVAL, (), s)
      else match txn s with
           | Some _ => (Returned 0, (), set_txn None s)
           | None => (Raised EINVAL, (), s)
           end).

Definition rollback_transaction : state → outcome * unit * state :=
  perform CallRollbackTransaction false ()
    (λ s,
      if negb (session s) then (Raised EINVAL, (), s)
      else match txn s with
           | Some snapshot => (Returned 0, (), set_txn None (set_table snapshot s))
           | None => (Raised EINVAL, (), s)
           end).

(** *** Cursors *)

Record cursor := mkCursor {
  overwrite : bool;
  key : option bytes;
  value : option bytes;
  position : option bytes      (* the key [next] returned last *)
}.

Definition set_key (k : bytes) (c : cursor) : cursor :=
  mkCursor (overwrite c) (Some k) (value c) (position c).
Definition set_value (v : bytes) (c : cursor) : cursor :=
  mkCursor (overwrite c) (key c) (Some v) (position c).

Definition open_cursor (ow : bool) : state → outcome * cursor * state :=
  perform (CallOpenCursor ow) true (mkCursor ow None None None)
    (λ s,
      let c := mkCursor ow None None None in
      if negb (session s) then (Raised EINVAL, c, s)
      else match table s with
           | None => (Raised ENOENT, c, s)
           | Some _ => (Returned 0, c, set_cursors (S (cursors s)) s)
           end).

Definition cursor_close (c : cursor) : state → outcome * unit * state :=
  perform CallCursorClose false ()
    (λ s,
      if negb (session s) then (Raised EINVAL, (), s)
      else (Returned 0, (), set_cursors (Nat.pred (cursors s)) s)).

Definition search (c : cursor) : state → outcome * cursor * state :=
  perform (CallSearch (key c)) false c
    (λ s,
      match session s, table s, key c with
      | true, Some t, Some k =>
          match t !! k with
          | Some v => (Returned 0, mkCursor (overwrite c) (Some k) (Some v) (position c), s)
          | None => (Returned WT_NOTFOUND, c, s)
          end
      | _, _, _ => (Raised EINVAL, c, s)
      end).

Definition insert (c : cursor) : state → outcome * cursor * state :=
  perform (CallInsert (key c) (value c)) false c
    (λ s,
      match session s, table s, key c, value c with
      | true, Some t, Some k, Some v =>
          if readonly s then (Raised ENOTSUP, c, s)
          else if negb (overwrite c) && bool_decide (is_Some (t !! k))
          then (Raised WT_DUPLICATE_KEY, c, s)
          else (Returned 0, c, set_table (Some (<[k := v]> t)) s)
      | _, _, _, _ => (Raised EINVAL, c, s)
      end).

Definition remove (c : cursor) : state → outcome * cursor * state :=
  perform (CallRemove (key c)) false c
    (λ s,
      match session s, table s, key c with
      | true, Some t, Some k =>
          if readonly s then (Raised ENOTSUP, c, s)
          else if negb (overwrite c) && negb (bool_decide (is_Some (t !! k)))
          then (Returned WT_NOTFOUND, c, s)
          else (Returned 0, c, set_table (Some (delete k t)) s)
      | _, _, _ => (Raised EINVAL, c, s)
      end).

(** The entry with the least key after [pos], in byte order. *)
Definition successor (t : gmap string string) (pos : option bytes) : option (bytes * bytes) :=
  foldr (λ kv best,
           if match pos with Some p => String.ltb p kv.1 | None => true end then
             match best with
             | Some b => if String.ltb kv.1 b.1 then Some kv else best
             | None => Some kv
             end
           else best)
        None (map_to_list t).

Definition next (c : cursor) : state → outcome * cursor * state :=
  perform CallNext false c
    (λ s,
      match session s, table s with
      | true, Some t =>
          match successor t (position c) with
          | Some (k, v) => (Returned 0, mkCursor (overwrite c) (Some k) (Some v) (Some k), s)
          | None => (Returned WT_NOTFOUND, c, s)
          end
      | _, _ => (Raised EINVAL, c, s)
      end).

End Engine.

(** ** Python control flow over the engine state *)

Definition M (A : Type) : Type := Engine.state → result A * Engine.state.

#[global] Instance M_ret : MRet M := λ A a s, (Ok a, s).
#[global] Instance M_bind : MBind M := λ A B k m s,
  match m s with
  | (Ok a, s') => k a s'
  | (Raise e, s') => (Raise e, s')
  end.

Definition raise {A : Type} (e : exn) : M A := λ s, (Raise e, s).

(** A pure computation that may raise, run inside [M]. *)
Definition lift {A : Type} (r : result A) : M A := λ s, (r, s).

(** [assert cond] *)
Definition assert (cond : bool) : M unit :=
  if cond then mret () else raise AssertionError.

(** [try: body finally: final].  An exception of [final] replaces the
    outcome of [body]. *)
Definition try_finally {A : Type} (body : M A) (final : M unit) : M A := λ s,
  let '(r, s1) := body s in
  match final s1 with
  | (Ok _, s2) => (r, s2)
  | (Raise e, s2) => (Raise e, s2)
  end.

(** [try: body except wiredtiger.WiredTigerError as e: handler(e.args[0])] *)
Definition try_except {A : Type} (body : M A) (handler : string → M A) : M A := λ s,
  match body s with
  | (Raise (WiredTigerError msg), s1) => handler msg s1
  | other => other
  end.

(** [try: x = body except wiredtiger.WiredTigerError as e: handler else: orelse].
    The [else] suite runs after a [body] that raised nothing and is not
    guarded by the [except] clause. *)
Definition try_except_else {A B : Type} (body : M B) (handler : string → M A)
    (orelse : B → M A) : M A := λ s,
  match body s with
  | (Ok x, s1) => orelse x s1
  | (Raise (WiredTigerError msg), s1) => handler msg s1
  | (Raise e, s1) => (Raise e, s1)
  end.

(** The Python binding of an engine call: a raised outcome is the exception
    [wiredtiger.WiredTigerError], a returned status is the call's value. *)
Definition engine_status {X : Type}
    (f : Engine.state → Engine.outcome * X * Engine.state) : M (Z * X) := λ s,
  match f s with
  | (Engine.Returned code, x, s') => (Ok (code, x), s')
  | (Engine.Raised msg, _, s') => (Raise (WiredTigerError msg), s')
  end.

Definition engine_ret (f : Engine.state → Engine.outcome * unit * Engine.state) : M Z :=
  '(code, _) ← engine_status f; mret code.

Definition engine_handle {X : Type}
    (f : Engine.state → Engine.outcome * X * Engine.state) : M X :=
  '(_, x) ← engine_status f; mret x.

(** [close()] of a session or connection object.  On an object that was
    closed before, the binding finds [None] in place of the handle and
    raises the builtin [TypeError] for it. *)
Definition engine_method
    (f : Engine.state → option (Engine.outcome * unit * Engine.state)) : M Z := λ s,
  match f s with
  | Some r => engine_ret (λ _, r) s
  | None => (Raise (TypeError PyNone), s)
  end.

(** [cursor.get_key()] and [cursor.get_value()] read the cursor; they fail
    on a cursor that holds none. *)
Definition get_key (c : Engine.cursor) : M bytes :=
  match Engine.key c with
  | Some k => mret k
  | None => raise (WiredTigerError Engine.EINVAL)
  end.

Definition get_value (c : Engine.cursor) : M bytes :=
  match Engine.value c with
  | Some v => mret v
  | None => raise (WiredTigerError Engine.EINVAL)
  end.

(** ** class _ConvertErrors *)

(** The callables given to [except_]; the only one the module registers is
    the bound method [self.close]. *)
Inductive callback := SelfClose.

(** [for func in self.funcs: func()] *)
Fixpoint call_funcs (run : callback → M unit) (funcs : list callback) : M unit :=
  match funcs with
  | [] => mret ()
  | func :: rest => run func;; call_funcs run rest
  end.

(** [_ConvertErrors.__exit__]: an engine exception whose message starts with
    [WT_PANIC:] ends the process, any other engine exception runs the
    registered callables and is raised again as [error(msg)]; everything else
    passes unchanged. *)
Definition ConvertErrors__exit__ {A : Type} (run : callback → M unit)
    (funcs : list callback) (outcome : result A) : M A :=
  match outcome with
  | Raise (WiredTigerError msg) =>
      if String.prefix "WT_PANIC:" msg then raise (SystemExit msg)
      else (call_funcs run funcs;; raise (error msg))
  | _ => lift outcome
  end.

(** [with _ConvertErrors() as e: body], where [body] also tells which
    callables it had registered through [e.except_] when it ended. *)
Definition with_ConvertErrors {A : Type} (run : callback → M unit)
    (body : Engine.state → result A * list callback * Engine.state) : M A := λ s,
  let '(r, funcs, s1) := body s in ConvertErrors__exit__ run funcs r s1.

(** A body that registers nothing. *)
Definition plain {A : Type} (m : M A) : Engine.state → result A * list callback * Engine.state :=
  λ s, let '(r, s1) := m s in (r, [], s1).

(** [m; e.except_(func)]: [func] is registered only once [m] has returned. *)
Definition then_except_ (m : M unit) (func : callback)
    : Engine.state → result unit * list callback * Engine.state := λ s,
  match m s with
  | (Ok _, s1) => (Ok (), [func], s1)
  | (Raise e, s1) => (Raise e, [], s1)
  end.

(** ** The codec *)

(** [str.encode("Latin-1")]: one byte per character, refused for a code point
    above 255. *)
Fixpoint encode_latin1 (s : list N) : result bytes :=
  match s with
  | [] => Ok EmptyString
  | c :: rest =>
      if (c <? 256)%N then
        match encode_latin1 rest with
        | Ok b => Ok (String (ascii_of_N c) b)
        | Raise e => Raise e
        end
      else Raise UnicodeEncodeError
  end.

(** The methods of a store object that a subclass overrides. *)
Record store := {
  pre_key : pyval → result bytes;
  post_key : bytes → result pyval;
  pre_value : pyval → result bytes;
  post_value : bytes → result pyval
}.

(** ** class WiredTigerDBM *)

Module WiredTigerDBM.

Definition _DEFAULT : pyval := PyDefault.

Definition _pre_key (key : pyval) : result bytes :=
  match key with
  | PyBytes b => Ok b
  | PyStr s => encode_latin1 s
  | _ => Raise (TypeError key)
  end.

Definition _post_key (key : bytes) : result pyval := Ok (PyBytes key).

Definition _pre_value (value : pyval) : result bytes :=
  match value with
  | PyBytes b => Ok b
  | PyStr s => encode_latin1 s
  | _ => Raise (TypeError value)
  end.

Definition _post_value (value : bytes) : result pyval := Ok (PyBytes value).

(** An object of the base class. *)
Definition cls : store :=
  {| pre_key := _pre_key; post_key := _post_key;
     pre_value := _pre_value; post_value := _post_value |}.

(** A parameter declared [default=_DEFAULT]; [None] is an omitted argument. *)
Definition default_arg (default : option pyval) : pyval :=
  match default with
  | Some d => d
  | None => _DEFAULT
  end.

(** *** Life cycle *)

Definition close : M unit :=
  engine_method Engine.session_close;;
  ret ← engine_method Engine.conn_close;
  assert (Z.eqb ret 0).

Definition run_callback (func : callback) : M unit :=
  match func with SelfClose => close end.

(** Python's [None], [False] and [True] as [_initialized] returns them. *)
Definition py_not (x : option bool) : bool :=
  match x with
  | Some b => negb b
  | None => true
  end.

Definition _initialized : M (option bool) :=
  try_except_else (engine_handle (Engine.open_cursor false))
    (λ msg,
      if String.eqb msg "No such file or directory" then mret (Some false)
      else mret None)
    (λ cursor,
      engine_ret (Engine.cursor_close cursor);;
      mret (Some true)).

Definition _create : M unit :=
  ret ← engine_ret Engine.create;
  assert (Z.eqb ret 0).

Definition _drop (force : bool) : M unit :=
  ret ← engine_ret (Engine.drop force);
  assert (Z.eqb ret 0).

Definition __init__ (mode : string) : M unit :=
  try_except (engine_handle Engine.open_session)
    (λ msg,
      ret ← engine_method Engine.conn_close;
      assert (Z.eqb ret 0);;
      raise (error msg));;
  with_ConvertErrors run_callback
    (if String.eqb mode "r" || String.eqb mode "w" then
       plain (initialized ← _initialized;
              if py_not initialized then
                close;; raise (error "Uninitialized database")
              else mret ())
     else if String.eqb mode "c" then
       then_except_ _create SelfClose
     else if String.eqb mode "n" then
       then_except_ (_drop true;; _create) SelfClose
     else plain (mret ())).

(** [Path(file).mkdir(parents=True, exist_ok=True)] *)
Definition mkdir : M unit := λ s,
  (Ok (), match Engine.home s with
          | Engine.NoDirectory => Engine.set_home Engine.EmptyDirectory s
          | _ => s
          end).

(** The class method [open]; [cls] is the object that [cls(conn, mode)]
    builds.  The debug log line has no effect on the store. *)
Definition open (cls : store) (file : string) (mode : string) : M store :=
  config ← (if String.eqb mode "r" then mret "readonly"
            else if String.eqb mode "w" then mret ""
            else if String.eqb mode "c" then mkdir;; mret "create"
            else if String.eqb mode "n" then mret "create"
            else raise (ValueError "Invalid mode"));
  with_ConvertErrors run_callback
    (plain (engine_handle
              (Engine.wiredtiger_open (config +:+ ",log=(enabled=false),verbose=[]"))));;
  __init__ mode;;
  mret cls.

Definition clear : M unit :=
  with_ConvertErrors run_callback (plain (_drop false;; _create)).

Definition sync : M unit := raise (RuntimeError "Not implemented yet").

Definition __len__ : M Z := raise (RuntimeError "Not implemented yet").

(** [__exit__(self, *args)] of the store *)
Definition __exit__ : M unit := close.

Section methods.

Variable self : store.

(** [cursor.close()] in a [finally] suite; the status is not looked at. *)
Definition finally_close (cursor : Engine.cursor) : M unit :=
  engine_ret (Engine.cursor_close cursor);; mret ().

Definition unknown_return_code {A : Type} (ret : Z) : M A :=
  raise (error ("Unknown return code: " +:+ string_of_Z ret)).

Definition __getitem__ (key : pyval) : M pyval :=
  cursor ← engine_handle (Engine.open_cursor false);
  try_finally
    (k ← lift (pre_key self key);
     let cursor := Engine.set_key k cursor in
     '(ret, cursor) ← engine_status (Engine.search cursor);
     value ← (if Z.eqb ret 0 then get_value cursor
              else if Z.eqb ret Engine.WT_NOTFOUND then raise (KeyError key)
              else unknown_return_code ret);
     lift (post_value self value))
    (finally_close cursor).

Definition __setitem__ (key value : pyval) : M unit :=
  cursor ← engine_handle (Engine.open_cursor true);
  try_finally
    (try_except
       (k ← lift (pre_key self key);
        let cursor := Engine.set_key k cursor in
        v ← lift (pre_value self value);
        let cursor := Engine.set_value v cursor in
        '(ret, cursor) ← engine_status (Engine.insert cursor);
        if Z.eqb ret 0 then mret ()
        else unknown_return_code ret)
       (λ msg, raise (error msg)))
    (finally_close cursor).

Definition __delitem__ (key : pyval) : M unit :=
  cursor ← engine_handle (Engine.open_cursor false);
  try_finally
    (k ← lift (pre_key self key);
     let cursor := Engine.set_key k cursor in
     '(ret, cursor) ← engine_status (Engine.remove cursor);
     if Z.eqb ret 0 then mret ()
     else if Z.eqb ret Engine.WT_NOTFOUND then raise (KeyError key)
     else unknown_return_code ret)
    (finally_close cursor).

Definition __contains__ (key : pyval) : M bool :=
  cursor ← engine_handle (Engine.open_cursor false);
  try_finally
    (k ← lift (pre_key self key);
     let cursor := Engine.set_key k cursor in
     '(ret, cursor) ← engine_status (Engine.search cursor);
     if Z.eqb ret 0 then mret true
     else if Z.eqb ret Engine.WT_NOTFOUND then mret false
     else unknown_return_code ret)
    (finally_close cursor).

(** [pop(key, default=_DEFAULT)]; [None] stands for an omitted argument. *)
Definition pop (key : pyval) (default : option pyval) : M pyval :=
  let default := default_arg default in
  cursor ← engine_handle (Engine.open_cursor false);
  try_finally
    (k ← lift (pre_key self key);
     let cursor := Engine.set_key k cursor in
     '(ret, cursor) ← engine_status (Engine.search cursor);
     if Z.eqb ret 0 then
       value ← get_value cursor;
       '(ret, cursor) ← engine_status (Engine.remove cursor);
       (if Z.eqb ret 0 then mret ()
        else raise (error ("remove failed: " +:+ string_of_Z ret)));;
       lift (post_value self value)
     else if Z.eqb ret Engine.WT_NOTFOUND then mret default
     else unknown_return_code ret)
    (finally_close cursor).

(** [get(key, default=_DEFAULT)]; [None] stands for an omitted argument. *)
Definition get (key : pyval) (default : option pyval) : M pyval :=
  let default := default_arg default in
  cursor ← engine_handle (Engine.open_cursor false);
  try_finally
    (k ← lift (pre_key self key);
     let cursor := Engine.set_key k cursor in
     '(ret, cursor) ← engine_status (Engine.search cursor);
     if Z.eqb ret 0 then
       value ← get_value cursor;
       lift (post_value self value)
     else if Z.eqb ret Engine.WT_NOTFOUND then mret default
     else unknown_return_code ret)
    (finally_close cursor).

Definition setdefault (key default : pyval) : M pyval :=
  cursor ← engine_handle (Engine.open_cursor false);
  try_finally
    (try_except
       (k ← lift (pre_key self key);
        let cursor := Engine.set_key k cursor in
        '(ret, cursor) ← engine_status (Engine.search cursor);
        if Z.eqb ret 0 then
          value ← get_value cursor;
          lift (post_value self value)
        else if Z.eqb ret Engine.WT_NOTFOUND then
          v ← lift (pre_value self default);
          let cursor := Engine.set_value v cursor in
          '(ret, cursor) ← engine_status (Engine.insert cursor);
          if Z.eqb ret 0 then mret default
          else raise (error ("Set failed: " +:+ string_of_Z ret))
        else raise (error ("Get failed: " +:+ string_of_Z ret)))
       (λ msg, raise (error msg)))
    (finally_close cursor).

(** The argument of [update]: a [Mapping], an object with [keys], or an
    iterable of pairs.  The first two are walked through their keys, each
    value being looked up by its key; a mapping holds each key once. *)
Inductive source :=
| Mapping (entries : list (pyval * pyval))
| Keyed (entries : list (pyval * pyval))
| Pairs (entries : list (pyval * pyval)).

(** The body of each of the three [for] loops of [update]. *)
Fixpoint insert_each (cursor : Engine.cursor) (entries : list (pyval * pyval)) : M unit :=
  match entries with
  | [] => mret ()
  | (key, value) :: rest =>
      k ← lift (pre_key self key);
      let cursor := Engine.set_key k cursor in
      v ← lift (pre_value self value);
      let cursor := Engine.set_value v cursor in
      '(ret, cursor) ← engine_status (Engine.insert cursor);
      assert (Z.eqb ret 0);;
      insert_each cursor rest
  end.

(** [update(__other=(), **kwds)]; the keyword arguments are not used by the
    body. *)
Definition update (other : source) : M unit :=
  cursor ← engine_handle (Engine.open_cursor true);
  try_finally
    (try_except_else
       (engine_ret Engine.begin_transaction;;
        match other with
        | Mapping entries => insert_each cursor entries
        | Keyed entries => insert_each cursor entries
        | Pairs entries => insert_each cursor entries
        end)
       (λ msg,
         engine_ret Engine.rollback_transaction;;
         raise (error msg))
       (λ _, engine_ret Engine.commit_transaction;; mret ()))
    (finally_close cursor).

(** *** Iteration *)

(** A generator object of [keys], [items] or [values]: not started yet,
    suspended at its [yield] with its cursor, or finished. *)
Inductive generator :=
| Created
| Suspended (cursor : Engine.cursor)
| Finished.

(** What the generators yield. *)
Inductive item :=
| One (x : pyval)
| Two (k v : pyval).

(** The [while True] loop from a call of [cursor.next()] up to the next
    [yield], or to the end of the [try] statement with its [finally]. *)
Definition resume (yield_ : Engine.cursor → M item) (cursor : Engine.cursor)
    : Engine.state → result (option item) * generator * Engine.state := λ s,
  let body : M (option (item * Engine.cursor)) :=
    '(ret, cursor) ← engine_status (Engine.next cursor);
    if Z.eqb ret 0 then x ← yield_ cursor; mret (Some (x, cursor))
    else if Z.eqb ret Engine.WT_NOTFOUND then mret None
    else unknown_return_code ret in
  match body s with
  | (Ok (Some (x, cursor)), s1) => (Ok (Some x), Suspended cursor, s1)
  | (Ok None, s1) =>
      let '(r, s2) := try_finally (mret None) (finally_close cursor) s1 in
      (r, Finished, s2)
  | (Raise e, s1) =>
      let '(r, s2) := try_finally (raise e) (finally_close cursor) s1 in
      (r, Finished, s2)
  end.

(** [next(g)]: [None] is [StopIteration]. *)
Definition generator_next (yield_ : Engine.cursor → M item) (g : generator)
    : Engine.state → result (option item) * generator * Engine.state := λ s,
  match g with
  | Created =>
      match engine_handle (Engine.open_cursor false) s with
      | (Ok cursor, s1) => resume yield_ cursor s1
      | (Raise e, s1) => (Raise e, Finished, s1)
      end
  | Suspended cursor => resume yield_ cursor s
  | Finished => (Ok None, Finished, s)
  end.

Definition keys_yield (cursor : Engine.cursor) : M item :=
  k ← get_key cursor;
  k ← lift (post_key self k);
  mret (One k).

Definition items_yield (cursor : Engine.cursor) : M item :=
  k ← get_key cursor;
  v ← get_value cursor;
  k ← lift (post_key self k);
  v ← lift (post_value self v);
  mret (Two k v).

Definition values_yield (cursor : Engine.cursor) : M item :=
  v ← get_value cursor;
  v ← lift (post_value self v);
  mret (One v).

Definition keys_next := generator_next keys_yield.
Definition items_next := generator_next items_yield.
Definition values_next := generator_next values_yield.

(** [list(g)], with a bound on the number of [next] calls; [None] when the
    bound is reached first. *)
Fixpoint list_ (next_ : generator → Engine.state → result (option item) * generator * Engine.state)
    (fuel : nat) (g : generator) : Engine.state → option (result (list item)) * Engine.state := λ s,
  match fuel with
  | O => (None, s)
  | S fuel =>
      match next_ g s with
      | (Ok (Some x), g1, s1) =>
          match list_ next_ fuel g1 s1 with
          | (Some (Ok xs), s2) => (Some (Ok (x :: xs)), s2)
          | other => other
          end
      | (Ok None, _, s1) => (Some (Ok []), s1)
      | (Raise e, _, s1) => (Some (Raise e), s1)
      end
  end.

End methods.

End WiredTigerDBM.

(** ** class WiredTigerDBMGzip *)

Module WiredTigerDBMGzip.

Section gzip.

(** [gzip.compress(data, compresslevel)] and [gzip.decompress(data)] of the
    Python library; either may raise. *)
Variable compress : bytes → Z → result bytes.
Variable decompress : bytes → result bytes.

Variable compresslevel : Z.

Definition _pre_value (value : pyval) : result bytes :=
  match WiredTigerDBM._pre_value value with
  | Ok value => compress value compresslevel
  | Raise e => Raise e
  end.

Definition _post_value (value : bytes) : result pyval :=
  match decompress value with
  | Ok b => Ok (PyBytes b)
  | Raise e => Raise e
  end.

(** An object of the subclass: the key methods are inherited. *)
Definition cls : store :=
  {| pre_key := WiredTigerDBM._pre_key; post_key := WiredTigerDBM._post_key;
     pre_value := _pre_value; post_value := _post_value |}.

End gzip.

End WiredTigerDBMGzip.

(** The module-level [open(file, flag="r")]; [None] is an omitted flag. *)
Definition open (file : string) (flag : option string) : M store :=
  WiredTigerDBM.open WiredTigerDBM.cls file (default "r" flag).

(** ** Vocabulary of the specification *)

(** The engine state behind an open store whose table holds [t]: connection
    and session open, no transaction running, [faults] still to be injected. *)
Definition store_state (read_only : bool) (t : gmap string string)
    (faults : list (option Engine.fault)) : Engine.state :=
  Engine.mkState Engine.Database (Some t) true read_only true None 0 faults [].

(** The same before [__init__] has opened the session. *)
Definition connected_state (read_only : bool) (t : option (gmap string string))
    (faults : list (option Engine.fault)) : Engine.state :=
  Engine.mkState Engine.Database t true read_only false None 0 faults [].

(** Nothing opened yet; [h] tells what the database path holds. *)
Definition closed_state (h : Engine.location) (t : option (gmap string string))
    : Engine.state :=
  Engine.mkState h t false false false None 0 [] [].

(** A state in which the table can be read: the session is open, the table
    holds [t] and no fault is pending. *)
Definition readable (s : Engine.state) (t : gmap string string) : Prop :=
  Engine.session s = true ∧ Engine.table s = Some t ∧ Engine.script s = [].

(** ... and written as well. *)
Definition writable (s : Engine.state) (t : gmap string string) : Prop :=
  readable s t ∧ Engine.readonly s = false.

(** The engine calls made on the way from [s] to [s']. *)
Definition since (s s' : Engine.state) : list (Engine.call * Engine.outcome) :=
  drop (length (Engine.log s)) (Engine.log s').

(** The entries that [update] walks through. *)
Definition entries_of (other : WiredTigerDBM.source) : list (pyval * pyval) :=
  match other with
  | WiredTigerDBM.Mapping entries => entries
  | WiredTigerDBM.Keyed entries => entries
  | WiredTigerDBM.Pairs entries => entries
  end.

(** The codec of [self] turns the entry into the bytes pair [kv]. *)
Definition encodes (self : store) (entry : pyval * pyval) (kv : bytes * bytes) : Prop :=
  pre_key self entry.1 = Ok kv.1 ∧ pre_value self entry.2 = Ok kv.2.

(** The table after the pairs [kvs] were written into [t], first to last. *)
Definition store_all (kvs : list (bytes * bytes)) (t : gmap string string)
    : gmap string string :=
  foldl (λ t kv, <[kv.1 := kv.2]> t) t kvs.

(** The log entries of one successful [insert] per pair. *)
Definition insert_events (kvs : list (bytes * bytes))
    : list (Engine.call * Engine.outcome) :=
  (λ kv, (Engine.CallInsert (Some kv.1) (Some kv.2), Engine.Returned 0)) <$> kvs.

(** The cursor of [update] after it has written the pairs [kvs]. *)
Definition cursor_after (kvs : list (bytes * bytes)) (c : Engine.cursor) : Engine.cursor :=
  foldl (λ c kv, Engine.set_value kv.2 (Engine.set_key kv.1 c)) c kvs.

(** A log entry of the cursor's [insert]. *)
Definition is_insert (e : Engine.call * Engine.outcome) : bool :=
  match e.1 with
  | Engine.CallInsert _ _ => true
  | _ => false
  end.

(** How [update] ends once cursor and transaction calls are made: [rl] is
    the outcome of the [try] suite, [tail] the transaction calls made after
    it, [ocl] the outcome of the cursor's [close] and [r] what the caller
    gets. *)
Definition update_tail (r rl : result unit) (ob ocl : Engine.outcome)
    (tail : list (Engine.call * Engine.outcome)) : Prop :=
  (rl = Ok () ∧ (∃ z, ob = Engine.Returned z)
   ∧ ∃ oc, tail = [(Engine.CallCommitTransaction, oc)])
  ∨ ((∃ m, rl = Raise (WiredTigerError m))
     ∧ ∃ orb, tail = [(Engine.CallRollbackTransaction, orb)])
  ∨ (∃ e, rl = Raise e ∧ (∀ m, e ≠ WiredTigerError m) ∧ tail = []
          ∧ ∀ z, ocl = Engine.Returned z → r = Raise e).

(** A reversible transform that stands for gzip where a concrete one is
    needed: a one-byte header that names the level, then the data. *)
Definition framed_compress (data : bytes) (level : Z) : result bytes :=
  if Z.leb 0 level && Z.leb level 9 then
    Ok (String (ascii_of_N (Z.to_N level)) data)
  else Raise (ValueError "Bad compression level").

Definition framed_decompress (data : bytes) : result bytes :=
  match data with
  | String _ rest => Ok rest
  | EmptyString => Raise (ValueError "Not a gzipped file")
  end.

(** Latin-1 bytes read back as code points. *)
Definition decode_latin1 (b : bytes) : list N := N_of_ascii <$> list_ascii_of_string b.

(** What [keys()] and [values()] keep of an item of [items()]. *)
Definition item_key (x : WiredTigerDBM.item) : WiredTigerDBM.item :=
  match x with
  | WiredTigerDBM.Two k _ => WiredTigerDBM.One k
  | WiredTigerDBM.One k => WiredTigerDBM.One k
  end.

Definition item_value (x : WiredTigerDBM.item) : WiredTigerDBM.item :=
  match x with
  | WiredTigerDBM.Two _ v => WiredTigerDBM.One v
  | WiredTigerDBM.One v => WiredTigerDBM.One v
  end.

(** The same on one step of a generator and on a whole listing. *)
Definition map_step (f : WiredTigerDBM.item → WiredTigerDBM.item)
    (x : result (option WiredTigerDBM.item) * WiredTigerDBM.generator * Engine.state)
    : result (option WiredTigerDBM.item) * WiredTigerDBM.generator * Engine.state :=
  let '(r, g, s) := x in
  (match r with
   | Ok o => Ok (option_map f o)
   | Raise e => Raise e
   end, g, s).

Definition map_listing (f : WiredTigerDBM.item → WiredTigerDBM.item)
    (x : option (result (list WiredTigerDBM.item)) * Engine.state)
    : option (result (list WiredTigerDBM.item)) * Engine.state :=
  let '(o, s) := x in
  (match o with
   | Some (Ok l) => Some (Ok (map f l))
   | Some (Raise e) => Some (Raise e)
   | None => None
   end, s).

(** The cursor that a method opens on the way from [s] to [s'] is released:
    either [open_cursor] raised and there is no cursor, or the last engine
    call is the cursor's [close]. *)
Definition releases_cursor (ow : bool) (s s' : Engine.state) : Prop :=
  (∃ m, Engine.log s' = (Engine.log s ++ [(Engine.CallOpenCursor ow, Engine.Raised m)])%list)
  ∨ (∃ o, last (Engine.log s') = Some (Engine.CallCursorClose, o)).

(** Whether the key [k] lies after the cursor position [pos]. *)
Definition after (pos : option bytes) (k : bytes) : bool :=
  match pos with
  | Some p => String.ltb p k
  | None => true
  end.

(** A table entry as [items()] of the base class yields it. *)
Definition entry_item (kv : bytes * bytes) : WiredTigerDBM.item :=
  WiredTigerDBM.Two (PyBytes kv.1) (PyBytes kv.2).

(** A store with one entry, for runs of the methods. *)
Definition sample_table : gmap string string := {["asd1" := "qwe1"]}.

(** * Verification *)

(** Runs the Python control flow and the engine calls of a goal as far as
    the state is known. *)
Ltac exec :=
  cbv [mbind M_bind mret M_ret raise lift assert try_finally try_except
       try_except_else engine_status engine_ret engine_handle engine_method
       get_key get_value
       with_ConvertErrors ConvertErrors__exit__ plain then_except_ call_funcs
       WiredTigerDBM.finally_close WiredTigerDBM.unknown_return_code
       WiredTigerDBM.default_arg WiredTigerDBM.run_callback
       Engine.perform Engine.open_cursor Engine.cursor_close Engine.search
       Engine.insert Engine.remove Engine.next Engine.set_key Engine.set_value
       Engine.begin_transaction Engine.commit_transaction
       Engine.rollback_transaction Engine.session_close Engine.conn_close
       Engine.release_session Engine.open_session Engine.create Engine.drop
       Engine.record Engine.set_home Engine.set_table Engine.set_conn
       Engine.set_session Engine.set_txn Engine.set_cursors Engine.set_script
       Engine.home Engine.table Engine.conn Engine.readonly Engine.session
       Engine.txn Engine.cursors Engine.script Engine.log
       Engine.overwrite Engine.key Engine.value Engine.position
       negb andb orb].

(** Splits a hypothesis about one engine call into the cases of the call. *)
Ltac engine_case H :=
  cbv [Engine.perform Engine.open_cursor Engine.cursor_close Engine.search
       Engine.insert Engine.remove Engine.next
       Engine.begin_transaction Engine.commit_transaction
       Engine.rollback_transaction
       Engine.record Engine.set_home Engine.set_table Engine.set_conn
       Engine.set_session Engine.set_txn Engine.set_cursors Engine.set_script
       Engine.home Engine.table Engine.conn Engine.readonly Engine.session
       Engine.txn Engine.cursors Engine.script Engine.log
       Engine.overwrite Engine.key Engine.value Engine.position
       negb andb orb] in H;
  repeat case_match; repeat simplify_eq; cbn;
  repeat match goal with
         | E : Engine.mkState _ _ _ _ _ _ _ _ _ = _ |- _ => inversion E; subst; clear E
         end.

(** Closes the goal of the loop lemma for a run that made no engine call. *)
Ltac no_events :=
  exists []; rewrite app_nil_r;
  split; [reflexivity|]; split; [reflexivity|]; split; [constructor|];
  split; [first [discriminate | intros _; split; [constructor | reflexivity]]
         | intros ? ? Hin; inversion Hin].

(** A call is not among the few listed ones. *)
Ltac not_listed :=
  let H := fresh in
  cbn; intros H;
  repeat (apply elem_of_cons in H as [H|H]; [discriminate H|]);
  by apply elem_of_nil in H.

(** The same for [open] and [__init__], whose mode and message tests are
    string comparisons: closed ones are evaluated, open ones left alone. *)
Ltac string_tests :=
  repeat match goal with
         | |- context [String.prefix ?a ?b] =>
             let v := eval vm_compute in (String.prefix a b) in
             lazymatch v with true => idtac | false => idtac end;
             change (String.prefix a b) with v
         end.

Ltac exec_strings :=
  cbv [mbind M_bind mret M_ret raise lift assert try_finally try_except
       try_except_else engine_status engine_ret engine_handle engine_method
       get_key get_value
       with_ConvertErrors ConvertErrors__exit__ plain then_except_ call_funcs
       WiredTigerDBM.finally_close WiredTigerDBM.unknown_return_code
       WiredTigerDBM.default_arg WiredTigerDBM.run_callback
       WiredTigerDBM.open WiredTigerDBM.__init__ WiredTigerDBM._initialized
       WiredTigerDBM._create WiredTigerDBM._drop WiredTigerDBM.close
       WiredTigerDBM.mkdir WiredTigerDBM.py_not WiredTigerDBM.clear
       closed_state connected_state store_state
       Engine.wiredtiger_open Engine.ENOENT Engine.EINVAL Engine.ENOTSUP
       Engine.EBUSY
       Engine.perform Engine.open_cursor Engine.cursor_close Engine.search
       Engine.insert Engine.remove Engine.next Engine.set_key Engine.set_value
       Engine.begin_transaction Engine.commit_transaction
       Engine.rollback_transaction Engine.session_close Engine.conn_close
       Engine.release_session Engine.open_session Engine.create Engine.drop
       Engine.record Engine.set_home Engine.set_table Engine.set_conn
       Engine.set_session Engine.set_txn Engine.set_cursors Engine.set_script
       Engine.home Engine.table Engine.conn Engine.readonly Engine.session
       Engine.txn Engine.cursors Engine.script Engine.log
       Engine.overwrite Engine.key Engine.value Engine.position
       String.eqb Ascii.eqb Bool.eqb String.append Z.eqb
       negb andb orb fst snd app].

Ltac exec_open := repeat (progress (exec_strings; string_tests)).

(** ** Opening a store *)

(** C4, as stated, fails: with the mode "x" [open] raises the builtin
    [ValueError("Invalid mode")], which is not the module's [error]. *)
Lemma open_invalid_mode_is_not_error :
  fst (open "./test.db" (Some "x") (closed_state Engine.EmptyDirectory None))
    = Raise (ValueError "Invalid mode")
  ∧ ∀ msg, fst (open "./test.db" (Some "x") (closed_state Engine.EmptyDirectory None))
             ≠ Raise (error msg).
Proof. split; [reflexivity | intros msg; discriminate]. Qed.

(** C4, amended: for every mode string other than "r", "w", "c" and "n",
    [open] raises [ValueError("Invalid mode")] before any engine call, so no
    store is returned and the engine state is untouched. *)
Theorem open_invalid_mode (cls : store) (file mode : string) (s : Engine.state) :
  mode ≠ "r" → mode ≠ "w" → mode ≠ "c" → mode ≠ "n" →
  WiredTigerDBM.open cls file mode s = (Raise (ValueError "Invalid mode"), s).
Proof.
  intros Hr Hw Hc Hn. unfold WiredTigerDBM.open.
  apply String.eqb_neq in Hr, Hw, Hc, Hn.
  rewrite Hr, Hw, Hc, Hn. reflexivity.
Qed.

Lemma open_invalid_mode_witness :
  WiredTigerDBM.open WiredTigerDBM.cls "./test.db" "x"
    (closed_state Engine.EmptyDirectory None)
  = (Raise (ValueError "Invalid mode"), closed_state Engine.EmptyDirectory None).
Proof. apply open_invalid_mode; discriminate. Defined.

(** C5, the code at a failing input: the table exists, and the probe's
    [open_cursor] fails with any message [msg].  [_initialized] returns
    [False] for the exact missing-table message and [None] for every other
    one, and in both cases [__init__] closes the store and raises
    [error("Uninitialized database")]: the engine's error is swallowed. *)
Theorem initialized_swallows_probe_error (msg : string) (read_only : bool)
    (t : gmap string string) :
  fst (WiredTigerDBM._initialized
         (store_state read_only t [Some (Engine.FaultRaise msg)]))
    = Ok (if String.eqb msg "No such file or directory" then Some false else None)
  ∧ fst (WiredTigerDBM.__init__ "r"
           (connected_state read_only (Some t) [None; Some (Engine.FaultRaise msg)]))
    = Raise (error "Uninitialized database")
  ∧ fst (WiredTigerDBM.__init__ "w"
           (connected_state read_only (Some t) [None; Some (Engine.FaultRaise msg)]))
    = Raise (error "Uninitialized database").
Proof.
  unfold WiredTigerDBM.__init__, WiredTigerDBM._initialized, WiredTigerDBM.close,
    store_state, connected_state.
  repeat split; exec; cbn;
    destruct (String.eqb msg "No such file or directory"); reflexivity.
Qed.

Example initialized_swallows_permission_denied :
  fst (WiredTigerDBM.__init__ "r"
         (connected_state true (Some ∅) [None; Some (Engine.FaultRaise "Permission denied")]))
  = Raise (error "Uninitialized database").
Proof. reflexivity. Qed.

(** ** Closing a store *)

(** A call of [close()] on a store whose session object is closed already
    stops at [self.session.close()]: the binding raises [TypeError], no
    engine call is made and nothing changes. *)
Lemma close_released_session (s : Engine.state) :
  Engine.session s = false →
  ∃ v, WiredTigerDBM.close s = (Raise (TypeError v), s).
Proof.
  intros Hs. destruct s; simpl in *; subst.
  unfold WiredTigerDBM.close. exec. eauto.
Qed.

(** C9, as stated, fails: a second [close()] after a successful first one
    raises [TypeError]; it is no no-op. *)
Lemma close_twice_raises :
  let s0 := store_state false ∅ [] in
  let s1 := snd (WiredTigerDBM.close s0) in
  fst (WiredTigerDBM.close s0) = Ok ()
  ∧ (∃ v, fst (WiredTigerDBM.close s1) = Raise (TypeError v))
  ∧ fst (WiredTigerDBM.close s1) ≠ Ok ()
  ∧ snd (WiredTigerDBM.close s1) = s1.
Proof.
  split; [reflexivity|]. split; [by eexists|]. split; [discriminate|reflexivity].
Qed.

(** C9, amended: [close()] has no already-closed guard.  On an open store
    the first call closes the session, then the connection, and succeeds.
    A second call is no no-op: it calls [close()] on the session object
    again, which is closed, and that call raises [TypeError] before any
    engine call; the store stays closed and nothing else changes. *)
Theorem close_not_idempotent (s : Engine.state) :
  Engine.session s = true → Engine.conn s = true → Engine.script s = [] →
  ∃ s1,
    WiredTigerDBM.close s = (Ok (), s1)
    ∧ since s s1 = [(Engine.CallSessionClose, Engine.Returned 0);
                    (Engine.CallConnClose, Engine.Returned 0)]
    ∧ Engine.session s1 = false ∧ Engine.conn s1 = false
    ∧ ∃ v, WiredTigerDBM.close s1 = (Raise (TypeError v), s1).
Proof.
  intros Hs Hc Hf. destruct s; simpl in *; subst.
  unfold WiredTigerDBM.close at 1, since.
  destruct txn; exec; cbn; eexists;
    (split; [reflexivity|]); cbn;
    (split; [rewrite <- app_assoc; apply drop_app_length|]);
    (split; [reflexivity|]); (split; [reflexivity|]);
    by apply close_released_session.
Qed.

Lemma close_not_idempotent_witness :
  ∃ s1,
    WiredTigerDBM.close (store_state false ∅ []) = (Ok (), s1)
    ∧ since (store_state false ∅ []) s1
      = [(Engine.CallSessionClose, Engine.Returned 0);
         (Engine.CallConnClose, Engine.Returned 0)]
    ∧ Engine.session s1 = false ∧ Engine.conn s1 = false
    ∧ ∃ v, WiredTigerDBM.close s1 = (Raise (TypeError v), s1).
Proof. apply (close_not_idempotent (store_state false ∅ [])); reflexivity. Defined.

(** ** Lookup after insert *)

(** Whatever the class of the store: after [store[key] = value] the table
    maps the encoded key to the encoded value, the lookup returns what
    [_post_value] makes of it and the membership test is true. *)
Lemma setitem_then_lookup (self : store) (key value r : pyval) (k v : bytes)
    (t : gmap string string) (s : Engine.state) :
  pre_key self key = Ok k → pre_value self value = Ok v → post_value self v = Ok r →
  writable s t →
  ∃ s1 s2 s3,
    WiredTigerDBM.__setitem__ self key value s = (Ok (), s1)
    ∧ Engine.table s1 = Some (<[k := v]> t)
    ∧ WiredTigerDBM.__getitem__ self key s1 = (Ok r, s2)
    ∧ WiredTigerDBM.__contains__ self key s2 = (Ok true, s3).
Proof.
  intros Hk Hv Hr [(Hs & Ht & Hf) Hro]. destruct s; simpl in *; subst.
  unfold WiredTigerDBM.__setitem__, WiredTigerDBM.__getitem__,
    WiredTigerDBM.__contains__.
  exec. rewrite Hk, Hv. exec. cbn. do 3 eexists.
  split; [reflexivity|]. split; [reflexivity|].
  exec. rewrite lookup_insert_eq. cbn. rewrite Hr.
  split; [reflexivity|].
  exec. rewrite lookup_insert_eq. reflexivity.
Qed.

(** C2, as stated, fails for a text value: the codec accepts the text
    "qwe1", the assignment succeeds, and the lookup returns the bytes
    b"qwe1", which is not the text that was stored. *)
Lemma getitem_after_setitem_str_is_bytes :
  let s0 := store_state false ∅ [] in
  let key := PyBytes "asd1" in
  let value := PyStr [113; 119; 101; 49]%N in
  let s1 := snd (WiredTigerDBM.__setitem__ WiredTigerDBM.cls key value s0) in
  pre_value WiredTigerDBM.cls value = Ok "qwe1"
  ∧ fst (WiredTigerDBM.__setitem__ WiredTigerDBM.cls key value s0) = Ok ()
  ∧ fst (WiredTigerDBM.__getitem__ WiredTigerDBM.cls key s1) = Ok (PyBytes "qwe1")
  ∧ fst (WiredTigerDBM.__getitem__ WiredTigerDBM.cls key s1) ≠ Ok value.
Proof. repeat split; try reflexivity. vm_compute. discriminate. Qed.

(** C2, amended: for every key and value the codec accepts, right after
    [store[key] = value] on an open writable store the lookup [store[key]]
    returns the bytes that encode the value (the value itself when it is
    bytes, its Latin-1 encoding when it is text) and [key in store] is
    true. *)
Theorem setitem_getitem_contains (key value : pyval) (k v : bytes)
    (t : gmap string string) (s : Engine.state) :
  WiredTigerDBM._pre_key key = Ok k → WiredTigerDBM._pre_value value = Ok v →
  writable s t →
  ∃ s1 s2 s3,
    WiredTigerDBM.__setitem__ WiredTigerDBM.cls key value s = (Ok (), s1)
    ∧ WiredTigerDBM.__getitem__ WiredTigerDBM.cls key s1 = (Ok (PyBytes v), s2)
    ∧ WiredTigerDBM.__contains__ WiredTigerDBM.cls key s2 = (Ok true, s3)
    ∧ (∀ b, value = PyBytes b → PyBytes v = value)
    ∧ (∀ text, value = PyStr text → encode_latin1 text = Ok v).
Proof.
  intros Hk Hv Hw.
  destruct (setitem_then_lookup WiredTigerDBM.cls key value (PyBytes v) k v t s)
    as (s1 & s2 & s3 & H1 & _ & H2 & H3); try assumption; try reflexivity.
  exists s1, s2, s3. repeat split; try assumption.
  - intros b ->. simpl in Hv. congruence.
  - intros text ->. exact Hv.
Qed.

Lemma setitem_getitem_contains_witness :
  ∃ s1 s2 s3,
    WiredTigerDBM.__setitem__ WiredTigerDBM.cls (PyStr [97; 115; 100; 49]%N)
      (PyBytes "qwe1") (store_state false ∅ []) = (Ok (), s1)
    ∧ WiredTigerDBM.__getitem__ WiredTigerDBM.cls (PyStr [97; 115; 100; 49]%N) s1
      = (Ok (PyBytes "qwe1"), s2)
    ∧ WiredTigerDBM.__contains__ WiredTigerDBM.cls (PyStr [97; 115; 100; 49]%N) s2
      = (Ok true, s3)
    ∧ (∀ b, PyBytes "qwe1" = PyBytes b → PyBytes "qwe1" = PyBytes "qwe1")
    ∧ (∀ text, PyBytes "qwe1" = PyStr text → encode_latin1 text = Ok "qwe1").
Proof.
  apply (setitem_getitem_contains (PyStr [97; 115; 100; 49]%N) (PyBytes "qwe1")
           "asd1" "qwe1" ∅ (store_state false ∅ [])).
  - reflexivity.
  - reflexivity.
  - repeat split.
Defined.

(** ** Lookup with a default *)

(** C7, as stated, fails: [get] of an absent key without a default returns
    the module's private object [_DEFAULT], not [None]. *)
Lemma get_without_default_returns_sentinel :
  fst (WiredTigerDBM.get WiredTigerDBM.cls (PyBytes "asd1") None (store_state false ∅ []))
    = Ok PyDefault
  ∧ fst (WiredTigerDBM.get WiredTigerDBM.cls (PyBytes "asd1") None (store_state false ∅ []))
    ≠ Ok PyNone.
Proof. split; [reflexivity | vm_compute; discriminate]. Qed.

(** C7, amended: for every key absent from the store, [get(key)] without a
    default returns the module's private object [_DEFAULT], and
    [get(key, d)] returns [d]; neither raises. *)
Theorem get_absent_key (self : store) (key : pyval) (k : bytes)
    (t : gmap string string) (s : Engine.state) :
  pre_key self key = Ok k → readable s t → t !! k = None →
  (∃ s', WiredTigerDBM.get self key None s = (Ok WiredTigerDBM._DEFAULT, s'))
  ∧ ∀ d, ∃ s', WiredTigerDBM.get self key (Some d) s = (Ok d, s').
Proof.
  intros Hk (Hs & Ht & Hf) Habs. destruct s; simpl in *; subst.
  split; [|intros d]; eexists; unfold WiredTigerDBM.get; exec.
  all: rewrite Hk; exec; rewrite Habs; cbn; reflexivity.
Qed.

Lemma get_absent_key_witness :
  (∃ s', WiredTigerDBM.get WiredTigerDBM.cls (PyBytes "asd1") None (store_state false ∅ [])
         = (Ok WiredTigerDBM._DEFAULT, s'))
  ∧ ∀ d, ∃ s', WiredTigerDBM.get WiredTigerDBM.cls (PyBytes "asd1") (Some d)
                 (store_state false ∅ []) = (Ok d, s').
Proof.
  apply (get_absent_key WiredTigerDBM.cls (PyBytes "asd1") "asd1" ∅ (store_state false ∅ [])).
  - reflexivity.
  - repeat split.
  - reflexivity.
Defined.

(** ** The compressing subclass *)

(** What the subclass does to a bytes value, given that the transform is
    reversible at the configured level. *)
Lemma gzip_value_roundtrip (compress : bytes → Z → result bytes)
    (decompress : bytes → result bytes) (compresslevel : Z) (v : bytes) :
  (∀ data, ∃ packed, compress data compresslevel = Ok packed
                     ∧ decompress packed = Ok data) →
  ∃ packed,
    WiredTigerDBMGzip._pre_value compress compresslevel (PyBytes v) = Ok packed
    ∧ compress v compresslevel = Ok packed
    ∧ WiredTigerDBMGzip._post_value decompress packed = Ok (PyBytes v).
Proof.
  intros Hrev. destruct (Hrev v) as (packed & Hc & Hd).
  exists packed. cbn. unfold WiredTigerDBMGzip._post_value.
  rewrite Hc, Hd. repeat split.
Qed.

(** C8: with a compression transform that is reversible at the configured
    level, the value codec of [WiredTigerDBMGzip] round-trips every bytes
    value: [_pre_value] compresses it and [_post_value] of the result gives
    the value back. *)
Theorem gzip_codec_roundtrip (compress : bytes → Z → result bytes)
    (decompress : bytes → result bytes) (compresslevel : Z) (v : bytes) :
  (∀ data, ∃ packed, compress data compresslevel = Ok packed
                     ∧ decompress packed = Ok data) →
  ∃ packed,
    pre_value (WiredTigerDBMGzip.cls compress decompress compresslevel) (PyBytes v)
      = Ok packed
    ∧ compress v compresslevel = Ok packed
    ∧ post_value (WiredTigerDBMGzip.cls compress decompress compresslevel) packed
      = Ok (PyBytes v).
Proof. exact (gzip_value_roundtrip compress decompress compresslevel v). Qed.

Lemma framed_roundtrip (data : bytes) :
  ∃ packed, framed_compress data 9 = Ok packed ∧ framed_decompress packed = Ok data.
Proof. eexists. split; reflexivity. Qed.

Lemma gzip_codec_roundtrip_witness :
  ∃ packed,
    pre_value (WiredTigerDBMGzip.cls framed_compress framed_decompress 9) (PyBytes "qwe1")
      = Ok packed
    ∧ framed_compress "qwe1" 9 = Ok packed
    ∧ post_value (WiredTigerDBMGzip.cls framed_compress framed_decompress 9) packed
      = Ok (PyBytes "qwe1").
Proof.
  apply (gzip_codec_roundtrip framed_compress framed_decompress 9 "qwe1").
  intros data. eexists. split; reflexivity.
Defined.

(** X30: the same through the store: a bytes value written to a
    [WiredTigerDBMGzip] store is read back unchanged. *)
Lemma gzip_setitem_getitem (compress : bytes → Z → result bytes)
    (decompress : bytes → result bytes) (compresslevel : Z)
    (key : pyval) (k v : bytes) (t : gmap string string) (s : Engine.state) :
  (∀ data, ∃ packed, compress data compresslevel = Ok packed
                     ∧ decompress packed = Ok data) →
  WiredTigerDBM._pre_key key = Ok k → writable s t →
  ∃ s1 s2,
    WiredTigerDBM.__setitem__ (WiredTigerDBMGzip.cls compress decompress compresslevel)
      key (PyBytes v) s = (Ok (), s1)
    ∧ WiredTigerDBM.__getitem__ (WiredTigerDBMGzip.cls compress decompress compresslevel)
        key s1 = (Ok (PyBytes v), s2).
Proof.
  intros Hrev Hk Hw.
  destruct (gzip_value_roundtrip compress decompress compresslevel v Hrev)
    as (packed & Hpre & _ & Hpost).
  destruct (setitem_then_lookup
              (WiredTigerDBMGzip.cls compress decompress compresslevel)
              key (PyBytes v) (PyBytes v) k packed t s Hk Hpre Hpost Hw)
    as (s1 & s2 & _ & H1 & _ & H2 & _).
  eauto.
Qed.

Lemma gzip_setitem_getitem_witness :
  ∃ s1 s2,
    WiredTigerDBM.__setitem__ (WiredTigerDBMGzip.cls framed_compress framed_decompress 9)
      (PyBytes "asd1") (PyBytes "qwe1") (store_state false ∅ []) = (Ok (), s1)
    ∧ WiredTigerDBM.__getitem__ (WiredTigerDBMGzip.cls framed_compress framed_decompress 9)
        (PyBytes "asd1") s1 = (Ok (PyBytes "qwe1"), s2).
Proof.
  apply (gzip_setitem_getitem framed_compress framed_decompress 9 (PyBytes "asd1")
           "asd1" "qwe1" ∅ (store_state false ∅ [])).
  - intros data. eexists. split; reflexivity.
  - reflexivity.
  - repeat split.
Defined.

(** ** Engine exceptions in the single-key operations *)

(** C3, the code at failing inputs.  When the engine call of an operation
    raises its exception with any message [msg], lookup, membership test,
    delete, [get], [pop] and iteration let that raw [WiredTigerError] reach
    the caller; only [__setitem__] has the [except] clause that turns it into
    [error(msg)].  The same on a read-only store, where the engine refuses
    [remove]: [del store[k]] raises the raw engine exception, while
    [store[k] = v] raises [error]. *)
Theorem engine_exception_reaches_caller (msg : string) (k : bytes)
    (t : gmap string string) :
  let failing := store_state false t [None; Some (Engine.FaultRaise msg)] in
  let read_only := store_state true t [] in
  fst (WiredTigerDBM.__getitem__ WiredTigerDBM.cls (PyBytes k) failing)
    = Raise (WiredTigerError msg)
  ∧ fst (WiredTigerDBM.__contains__ WiredTigerDBM.cls (PyBytes k) failing)
    = Raise (WiredTigerError msg)
  ∧ fst (WiredTigerDBM.__delitem__ WiredTigerDBM.cls (PyBytes k) failing)
    = Raise (WiredTigerError msg)
  ∧ fst (WiredTigerDBM.get WiredTigerDBM.cls (PyBytes k) (Some PyNone) failing)
    = Raise (WiredTigerError msg)
  ∧ fst (WiredTigerDBM.pop WiredTigerDBM.cls (PyBytes k) (Some PyNone) failing)
    = Raise (WiredTigerError msg)
  ∧ fst (fst (WiredTigerDBM.keys_next WiredTigerDBM.cls WiredTigerDBM.Created failing))
    = Raise (WiredTigerError msg)
  ∧ fst (WiredTigerDBM.__setitem__ WiredTigerDBM.cls (PyBytes k) (PyBytes k) failing)
    = Raise (error msg)
  ∧ fst (WiredTigerDBM.__delitem__ WiredTigerDBM.cls (PyBytes k) read_only)
    = Raise (WiredTigerError "Operation not supported")
  ∧ fst (WiredTigerDBM.__setitem__ WiredTigerDBM.cls (PyBytes k) (PyBytes k) read_only)
    = Raise (error "Operation not supported").
Proof. repeat split. Qed.

(** An engine failure reported as a status, on the other hand, is raised as
    the module's [error]. *)
Lemma getitem_unknown_status (code : Z) (k : bytes) (t : gmap string string) :
  code ≠ 0 → code ≠ Engine.WT_NOTFOUND →
  fst (WiredTigerDBM.__getitem__ WiredTigerDBM.cls (PyBytes k)
         (store_state false t [None; Some (Engine.FaultCode code)]))
  = Raise (error ("Unknown return code: " +:+ string_of_Z code)).
Proof.
  intros H0 Hn. apply Z.eqb_neq in H0, Hn.
  unfold WiredTigerDBM.__getitem__, store_state. exec.
  rewrite H0. cbn. rewrite H0, Hn. reflexivity.
Qed.

(** ** pop *)

(** X8: a present key: [pop] returns the decoded value and the entry is gone. *)
Lemma pop_present (self : store) (key r : pyval) (default : option pyval)
    (k v : bytes) (t : gmap string string) (s : Engine.state) :
  pre_key self key = Ok k → post_value self v = Ok r → writable s t →
  t !! k = Some v →
  ∃ s', WiredTigerDBM.pop self key default s = (Ok r, s')
        ∧ Engine.table s' = Some (delete k t)
        ∧ since s s' = [(Engine.CallOpenCursor false, Engine.Returned 0);
                        (Engine.CallSearch (Some k), Engine.Returned 0);
                        (Engine.CallRemove (Some k), Engine.Returned 0);
                        (Engine.CallCursorClose, Engine.Returned 0)].
Proof.
  intros Hk Hr [(Hs & Ht & Hf) Hro] Hv. destruct s; simpl in *; subst.
  unfold WiredTigerDBM.pop, since. exec. rewrite Hk. exec. rewrite Hv. cbn.
  rewrite Hv. cbn. rewrite Hr. eexists. repeat split.
  rewrite <- !app_assoc. apply drop_app_length.
Qed.

Lemma pop_present_witness :
  ∃ s', WiredTigerDBM.pop WiredTigerDBM.cls (PyBytes "asd1") None
          (store_state false sample_table []) = (Ok (PyBytes "qwe1"), s')
        ∧ Engine.table s' = Some (delete "asd1" sample_table)
        ∧ since (store_state false sample_table []) s'
          = [(Engine.CallOpenCursor false, Engine.Returned 0);
             (Engine.CallSearch (Some "asd1"), Engine.Returned 0);
             (Engine.CallRemove (Some "asd1"), Engine.Returned 0);
             (Engine.CallCursorClose, Engine.Returned 0)].
Proof.
  apply (pop_present WiredTigerDBM.cls (PyBytes "asd1") (PyBytes "qwe1") None
           "asd1" "qwe1" sample_table (store_state false sample_table [])).
  - reflexivity.
  - reflexivity.
  - repeat split.
  - reflexivity.
Defined.

(** X9: an absent key: [pop] returns the default and changes nothing. *)
Lemma pop_absent (self : store) (key : pyval) (default : option pyval)
    (k : bytes) (t : gmap string string) (s : Engine.state) :
  pre_key self key = Ok k → readable s t → t !! k = None →
  ∃ s', WiredTigerDBM.pop self key default s
          = (Ok (WiredTigerDBM.default_arg default), s')
        ∧ Engine.table s' = Some t.
Proof.
  intros Hk (Hs & Ht & Hf) Hv. destruct s; simpl in *; subst.
  unfold WiredTigerDBM.pop. exec. rewrite Hk. exec. rewrite Hv. cbn.
  eexists. split; reflexivity.
Qed.

Lemma pop_absent_witness :
  ∃ s', WiredTigerDBM.pop WiredTigerDBM.cls (PyBytes "asd2") (Some PyNone)
          (store_state false sample_table [])
        = (Ok (WiredTigerDBM.default_arg (Some PyNone)), s')
        ∧ Engine.table s' = Some sample_table.
Proof.
  apply (pop_absent WiredTigerDBM.cls (PyBytes "asd2") (Some PyNone) "asd2"
           sample_table (store_state false sample_table [])).
  - reflexivity.
  - repeat split.
  - reflexivity.
Defined.

(** X10: [remove] reports a non-zero status after a successful search: [pop]
    raises [error] and does not return the value it read. *)
Lemma pop_remove_status (self : store) (key : pyval) (default : option pyval)
    (k v : bytes) (code : Z) (t : gmap string string) (read_only : bool) :
  pre_key self key = Ok k → t !! k = Some v → code ≠ 0 →
  fst (WiredTigerDBM.pop self key default
         (store_state read_only t [None; None; Some (Engine.FaultCode code)]))
  = Raise (error ("remove failed: " +:+ string_of_Z code)).
Proof.
  intros Hk Hv Hc. apply Z.eqb_neq in Hc.
  unfold WiredTigerDBM.pop, store_state. exec. rewrite Hk. exec. rewrite Hv. cbn.
  rewrite Hc. cbn. rewrite Hc. reflexivity.
Qed.

Lemma pop_remove_status_witness :
  fst (WiredTigerDBM.pop WiredTigerDBM.cls (PyBytes "asd1") None
         (store_state false sample_table
            [None; None; Some (Engine.FaultCode Engine.WT_NOTFOUND)]))
  = Raise (error ("remove failed: " +:+ string_of_Z Engine.WT_NOTFOUND)).
Proof.
  apply (pop_remove_status WiredTigerDBM.cls (PyBytes "asd1") None "asd1" "qwe1"
           Engine.WT_NOTFOUND sample_table false).
  - reflexivity.
  - reflexivity.
  - discriminate.
Defined.

(** C6, the code at failing inputs: the key is present, the search succeeds
    and the engine's [remove] raises its exception, injected with any
    message or because the store is read-only.  [pop] does not return the
    value, but what reaches the caller is the raw [WiredTigerError], not
    [error], and the entry is still in the table. *)
Theorem pop_remove_exception_reaches_caller (msg : string) (k v : bytes)
    (t : gmap string string) (default : option pyval) :
  let failing :=
    store_state false (<[k := v]> t) [None; None; Some (Engine.FaultRaise msg)] in
  let read_only := store_state true (<[k := v]> t) [] in
  fst (WiredTigerDBM.pop WiredTigerDBM.cls (PyBytes k) default failing)
    = Raise (WiredTigerError msg)
  ∧ Engine.table (snd (WiredTigerDBM.pop WiredTigerDBM.cls (PyBytes k) default failing))
    = Some (<[k := v]> t)
  ∧ fst (WiredTigerDBM.pop WiredTigerDBM.cls (PyBytes k) default read_only)
    = Raise (WiredTigerError "Operation not supported")
  ∧ Engine.table (snd (WiredTigerDBM.pop WiredTigerDBM.cls (PyBytes k) default read_only))
    = Some (<[k := v]> t).
Proof.
  intros failing read_only. subst failing read_only.
  unfold WiredTigerDBM.pop, store_state. exec. cbn. exec.
  rewrite lookup_insert_eq. repeat split.
Qed.

(** ** The calls of the batch update *)

(** *** Inversion of the control flow *)

Section control.
Context {A B : Type}.

Lemma bind_inv (m : M A) (k : A → M B) s r s' :
  (m ≫= k) s = (r, s') →
  (∃ a s1, m s = (Ok a, s1) ∧ k a s1 = (r, s'))
  ∨ (∃ e, m s = (Raise e, s') ∧ r = Raise e).
Proof.
  unfold mbind, M_bind. destruct (m s) as [[a|e] s1]; intros H.
  - left. eauto.
  - right. simplify_eq. eauto.
Qed.

Lemma try_finally_inv (body : M A) (final : M unit) s r s' :
  try_finally body final s = (r, s') →
  ∃ rb s1 rf, body s = (rb, s1) ∧ final s1 = (rf, s')
              ∧ r = match rf with Ok _ => rb | Raise e => Raise e end.
Proof.
  unfold try_finally. destruct (body s) as [rb s1].
  destruct (final s1) as [[[]|e] s2] eqn:E; intros H; simplify_eq; eauto 6.
Qed.

Lemma try_except_else_inv (body : M B) (handler : string → M A) (orelse : B → M A) s r s' :
  try_except_else body handler orelse s = (r, s') →
  ∃ rb s1, body s = (rb, s1)
           ∧ match rb with
             | Ok x => orelse x s1 = (r, s')
             | Raise (WiredTigerError msg) => handler msg s1 = (r, s')
             | Raise e => r = Raise e ∧ s' = s1
             end.
Proof.
  unfold try_except_else. destruct (body s) as [[x|e] s1]; intros H.
  - eauto.
  - exists (Raise e), s1. split; [done|]. destruct e; simplify_eq; auto.
Qed.
End control.

(** What an engine call gave, read back from its Python result. *)
Lemma engine_status_inv {X} (f : Engine.state → Engine.outcome * X * Engine.state) s r s' :
  engine_status f s = (r, s') →
  ∃ o x, f s = (o, x, s')
         ∧ r = match o with
               | Engine.Returned code => Ok (code, x)
               | Engine.Raised msg => Raise (WiredTigerError msg)
               end.
Proof.
  unfold engine_status. destruct (f s) as [[[code|msg] x] s1]; intros H; simplify_eq; eauto.
Qed.

Lemma engine_ret_inv (f : Engine.state → Engine.outcome * unit * Engine.state) s r s' :
  engine_ret f s = (r, s') →
  ∃ o, f s = (o, (), s')
       ∧ r = match o with
             | Engine.Returned code => Ok code
             | Engine.Raised msg => Raise (WiredTigerError msg)
             end.
Proof.
  unfold engine_ret, mbind, M_bind, mret, M_ret, engine_status.
  destruct (f s) as [[[code|msg] []] s1]; intros H; simplify_eq; eauto.
Qed.

Lemma engine_handle_inv {X} (f : Engine.state → Engine.outcome * X * Engine.state) s r s' :
  engine_handle f s = (r, s') →
  ∃ o x, f s = (o, x, s')
         ∧ r = match o with
               | Engine.Returned _ => Ok x
               | Engine.Raised msg => Raise (WiredTigerError msg)
               end.
Proof.
  unfold engine_handle, mbind, M_bind, mret, M_ret, engine_status.
  destruct (f s) as [[[code|msg] x] s1]; intros H; simplify_eq; eauto.
Qed.

(** *** One log entry per engine call *)

Lemma insert_event (c c' : Engine.cursor) (s s' : Engine.state) (o : Engine.outcome) :
  Engine.insert c s = (o, c', s') →
  Engine.log s' = (Engine.log s ++ [(Engine.CallInsert (Engine.key c) (Engine.value c), o)])%list
  ∧ Engine.txn s' = Engine.txn s.
Proof. destruct s, c. intros H. engine_case H; auto. Qed.

Lemma begin_event (s s' : Engine.state) (o : Engine.outcome) (u : unit) :
  Engine.begin_transaction s = (o, u, s') →
  Engine.log s' = (Engine.log s ++ [(Engine.CallBeginTransaction, o)])%list
  ∧ (o = Engine.Returned 0 → is_Some (Engine.txn s')).
Proof.
  destruct s. intros H. engine_case H; split; auto; intros; simplify_eq; eauto.
Qed.

Lemma commit_event (s s' : Engine.state) (o : Engine.outcome) (u : unit) :
  Engine.commit_transaction s = (o, u, s') →
  Engine.log s' = (Engine.log s ++ [(Engine.CallCommitTransaction, o)])%list.
Proof. destruct s. intros H. engine_case H; auto. Qed.

Lemma rollback_event (s s' : Engine.state) (o : Engine.outcome) (u : unit) :
  Engine.rollback_transaction s = (o, u, s') →
  Engine.log s' = (Engine.log s ++ [(Engine.CallRollbackTransaction, o)])%list.
Proof. destruct s. intros H. engine_case H; auto. Qed.

Lemma open_cursor_event (ow : bool) (c : Engine.cursor) (s s' : Engine.state) (o : Engine.outcome) :
  Engine.open_cursor ow s = (o, c, s') →
  Engine.log s' = (Engine.log s ++ [(Engine.CallOpenCursor ow, o)])%list
  ∧ (∀ code, o = Engine.Returned code → code = 0).
Proof. destruct s. intros H. engine_case H; split; auto; intros; simplify_eq; auto. Qed.

Lemma cursor_close_event (c : Engine.cursor) (s s' : Engine.state) (o : Engine.outcome) (u : unit) :
  Engine.cursor_close c s = (o, u, s') →
  Engine.log s' = (Engine.log s ++ [(Engine.CallCursorClose, o)])%list
  ∧ Engine.txn s' = Engine.txn s.
Proof. destruct s. intros H. engine_case H; auto. Qed.

(** *** The loop of [update] *)

Section loop.
Variable self : store.

(** Whatever the faults: the loop makes only [insert] calls and leaves the
    transaction as it is; if it ends normally every call returned 0 and
    there is one per entry; a call that returned another status stopped it
    with an [AssertionError]. *)
Lemma insert_each_trace (entries : list (pyval * pyval)) :
  ∀ cursor s r s',
    WiredTigerDBM.insert_each self cursor entries s = (r, s') →
    ∃ evs,
      Engine.log s' = (Engine.log s ++ evs)%list
      ∧ Engine.txn s' = Engine.txn s
      ∧ Forall (λ e, is_insert e = true) evs
      ∧ (r = Ok () → Forall (λ e, e.2 = Engine.Returned 0) evs
                     ∧ length evs = length entries)
      ∧ (∀ c code, (c, Engine.Returned code) ∈ evs → code ≠ 0 →
                   r = Raise AssertionError).
Proof.
  induction entries as [|[key value] rest IH]; intros cursor s r s' H.
  - cbv [WiredTigerDBM.insert_each mret M_ret] in H. simplify_eq. no_events.
  - cbn [WiredTigerDBM.insert_each] in H.
    apply bind_inv in H as [(k & s1 & Hk & H)|(e & Hk & ->)]; cycle 1.
    { unfold lift in Hk. simplify_eq. no_events. }
    assert (s1 = s) as -> by (unfold lift in Hk; congruence). clear Hk.
    apply bind_inv in H as [(v & s1 & Hv & H)|(e & Hv & ->)]; cycle 1.
    { unfold lift in Hv. simplify_eq. no_events. }
    assert (s1 = s) as -> by (unfold lift in Hv; congruence). clear Hv.
    apply bind_inv in H as [([ret c1] & s1 & Hi & H)|(e & Hi & ->)].
    + apply engine_status_inv in Hi as (o & x & Hi & Ho).
      apply insert_event in Hi as [Hlog Htxn].
      destruct o as [code|msg]; [|discriminate]. injection Ho as -> ->.
      apply bind_inv in H as [([] & s2 & Ha & H)|(e & Ha & ->)].
      * unfold assert in Ha. destruct (Z.eqb_spec code 0) as [->|Hne]; [|discriminate].
        injection Ha as <-.
        apply IH in H as (evs & Hlog' & Htxn' & Hins & Hok & Hnz).
        eexists (_ :: evs). rewrite Hlog', Hlog, <- app_assoc. split; [reflexivity|].
        split; [congruence|]. split; [constructor; auto|].
        split.
        -- intros Hr. destruct (Hok Hr) as [? ?]. split; [constructor; auto|].
           cbn. congruence.
        -- intros c code Hin Hc. apply elem_of_cons in Hin as [Heq|Hin]; [|eauto].
           simplify_eq.
      * unfold assert in Ha. destruct (Z.eqb_spec code 0) as [->|Hne]; [discriminate|].
        injection Ha as <- <-.
        eexists [_]. split; [exact Hlog|]. split; [exact Htxn|].
        split; [repeat constructor|]. split; [discriminate|]. auto.
    + apply engine_status_inv in Hi as (o & x & Hi & Ho).
      apply insert_event in Hi as [Hlog Htxn].
      destruct o as [code|msg]; [discriminate|]. 
      eexists [_]. split; [exact Hlog|]. split; [exact Htxn|].
      split; [repeat constructor|]. split; [discriminate|].
      intros c code Hin Hc. apply list_elem_of_singleton in Hin. discriminate.
Qed.
End loop.

(** *** The whole of [update] *)

Lemma finally_close_inv (cursor : Engine.cursor) s rf s' :
  WiredTigerDBM.finally_close cursor s = (rf, s') →
  ∃ o, Engine.log s' = (Engine.log s ++ [(Engine.CallCursorClose, o)])%list
       ∧ Engine.txn s' = Engine.txn s
       ∧ (∀ z, o = Engine.Returned z → rf = Ok ()).
Proof.
  unfold WiredTigerDBM.finally_close. intros H.
  apply bind_inv in H as [(z & s1 & Hc & H)|(e & Hc & ->)];
    apply engine_ret_inv in Hc as (o & Hc & Ho);
    apply cursor_close_event in Hc as [Hlog Htxn]; exists o.
  - unfold mret, M_ret in H. simplify_eq. auto.
  - repeat split; auto. intros z ->. discriminate.
Qed.

Lemma since_app (s s' : Engine.state) evs :
  Engine.log s' = (Engine.log s ++ evs)%list → since s s' = evs.
Proof. intros H. unfold since. rewrite H. apply drop_app_length. Qed.

(** The calls of one [update], whatever the state and the faults: either
    the cursor could not be opened, or the calls are [open_cursor],
    [begin_transaction], the inserts, at most one of commit and rollback,
    and the cursor's [close]. *)
Lemma update_shape (self : store) (other : WiredTigerDBM.source) s r s' :
  WiredTigerDBM.update self other s = (r, s') →
  (∃ m, since s s' = [(Engine.CallOpenCursor true, Engine.Raised m)])
  ∨ ∃ ob evs rl tail ocl,
      since s s' = ([(Engine.CallOpenCursor true, Engine.Returned 0);
                     (Engine.CallBeginTransaction, ob)]
                    ++ evs ++ tail ++ [(Engine.CallCursorClose, ocl)])%list
      ∧ Forall (λ e, is_insert e = true) evs
      ∧ (rl = Ok () → Forall (λ e, e.2 = Engine.Returned 0) evs
                      ∧ length evs = length (entries_of other))
      ∧ (∀ c code, (c, Engine.Returned code) ∈ evs → code ≠ 0 →
                   rl = Raise AssertionError)
      ∧ (ob = Engine.Returned 0 → tail = [] → is_Some (Engine.txn s'))
      ∧ update_tail r rl ob ocl tail.
Proof.
  unfold WiredTigerDBM.update. intros H.
  apply bind_inv in H as [(cursor & s1 & Ho & H)|(e & Ho & ->)];
    apply engine_handle_inv in Ho as (oo & x & Ho & Hoo);
    apply open_cursor_event in Ho as [Hlog1 Hzero]; cycle 1.
  { left. destruct oo as [z|m]; [discriminate|]. exists m. by apply since_app. }
  right. destruct oo as [z|m]; [|discriminate]. rewrite (Hzero z eq_refl) in Hlog1.
  clear Hzero Hoo x z.
  apply try_finally_inv in H as (rb & s2 & rf & Hbody & Hfin & ->).
  apply finally_close_inv in Hfin as (ocl & Hlog3 & Htxn3 & Hcl).
  apply try_except_else_inv in Hbody as (rl & s3 & Hbody & Hcase).
  apply bind_inv in Hbody as [(zb & s4 & Hb & Hloop)|(e & Hb & ->)];
    apply engine_ret_inv in Hb as (ob & Hb & Hob);
    apply begin_event in Hb as [Hlog2 Hbegun].
  - (* the transaction call returned; the loop ran *)
    assert (∃ evs,
      Engine.log s3 = (Engine.log s4 ++ evs)%list
      ∧ Engine.txn s3 = Engine.txn s4
      ∧ Forall (λ e, is_insert e = true) evs
      ∧ (rl = Ok () → Forall (λ e, e.2 = Engine.Returned 0) evs
                      ∧ length evs = length (entries_of other))
      ∧ (∀ c code, (c, Engine.Returned code) ∈ evs → code ≠ 0 →
                   rl = Raise AssertionError))
      as (evs & Hlog4 & Htxn4 & Hins & Hok & Hnz)
      by (destruct other; eapply insert_each_trace; eassumption).
    destruct ob as [z|m]; [|discriminate]. clear Hob.
    destruct rl as [[]|e].
    + (* commit *)
      apply bind_inv in Hcase as [(zc & s5 & Hc & H)|(e & Hc & ->)];
        apply engine_ret_inv in Hc as (oc & Hc & _);
        apply commit_event in Hc as Hlog5;
        [unfold mret, M_ret in H; simplify_eq|];
        exists (Engine.Returned z), evs, (Ok ()), [(Engine.CallCommitTransaction, oc)], ocl;
        (split; [apply since_app; rewrite Hlog3, Hlog5, Hlog4, Hlog2, Hlog1;
                 rewrite <- !app_assoc; reflexivity|]);
        (split; [assumption|]); (split; [assumption|]); (split; [assumption|]);
        (split; [discriminate|]); left; eauto.
    + assert ((∃ m, e = WiredTigerError m) ∨ (∀ m, e ≠ WiredTigerError m))
        as [[m ->]|Hnot] by (destruct e; eauto; right; discriminate).
      * (* rollback *)
        apply bind_inv in Hcase as [(zc & s5 & Hc & H)|(e & Hc & ->)];
          apply engine_ret_inv in Hc as (orb & Hc & _);
          apply rollback_event in Hc as Hlog5;
          [unfold raise in H; simplify_eq|];
          exists (Engine.Returned z), evs, (Raise (WiredTigerError m)),
                 [(Engine.CallRollbackTransaction, orb)], ocl;
          (split; [apply since_app; rewrite Hlog3, Hlog5, Hlog4, Hlog2, Hlog1;
                   rewrite <- !app_assoc; reflexivity|]);
          (split; [assumption|]); (split; [assumption|]); (split; [assumption|]);
          (split; [discriminate|]); right; left; eauto.
      * (* neither *)
        assert (rb = Raise e ∧ s2 = s3) as [-> ->].
        { destruct e; try exact Hcase. exfalso. by eapply Hnot. }
        exists (Engine.Returned z), evs, (Raise e), [], ocl.
        split; [apply since_app; rewrite Hlog3, Hlog4, Hlog2, Hlog1;
                rewrite <- !app_assoc; reflexivity|].
        split; [assumption|]. split; [assumption|]. split; [assumption|].
        split.
        { intros Hz _. rewrite Htxn3, Htxn4. auto. }
        right; right. exists e. repeat split; auto.
        intros z' ->. rewrite (Hcl z' eq_refl). reflexivity.
  - (* the transaction call raised *)
    destruct ob as [z|m]; [discriminate|]. injection Hob as ->.
    apply bind_inv in Hcase as [(zc & s5 & Hc & H)|(e & Hc & ->)];
      apply engine_ret_inv in Hc as (orb & Hc & _);
      apply rollback_event in Hc as Hlog5;
      [unfold raise in H; simplify_eq|];
      exists (Engine.Raised m), [], (Raise (WiredTigerError m)),
             [(Engine.CallRollbackTransaction, orb)], ocl;
      (split; [apply since_app; rewrite Hlog3, Hlog5, Hlog2, Hlog1;
               rewrite <- !app_assoc; reflexivity|]);
      (split; [constructor|]); (split; [discriminate|]);
      (split; [intros ? ? Hin; inversion Hin|]);
      (split; [discriminate|]); right; left; eauto.
Qed.

Lemma insert_calls (evs : list (Engine.call * Engine.outcome)) (e : Engine.call * Engine.outcome) :
  Forall (λ e, is_insert e = true) evs → e ∈ evs → ∃ k v, e.1 = Engine.CallInsert k v.
Proof.
  intros Hall Hin. rewrite Forall_forall in Hall. specialize (Hall e Hin).
  unfold is_insert in Hall. destruct e as [[] o]; try discriminate. cbn. eauto.
Qed.

Lemma elem_of_middle {A : Type} (x : A) (pre mid post : list A) :
  x ∈ (pre ++ mid ++ post)%list → x ∉ pre → x ∉ post → x ∈ mid.
Proof. rewrite !elem_of_app. tauto. Qed.

(** C10: in every run of [update], from any state and under any faults.
    If an [insert] call of the run returned a non-zero status, the calls of
    the run are [open_cursor], [begin_transaction], inserts and the cursor's
    [close] and nothing else: no commit and no rollback; the caller gets
    [AssertionError] (unless the cursor's [close] raised on top of it), and a
    transaction that was begun is still running.  And if the run called
    [commit_transaction], then [begin_transaction] had returned, there was
    one [insert] per entry of the source and each returned status 0. *)
Theorem update_nonzero_insert_status (self : store) (other : WiredTigerDBM.source)
    (s s' : Engine.state) (r : result unit) :
  WiredTigerDBM.update self other s = (r, s') →
  (∀ k v code,
     (Engine.CallInsert k v, Engine.Returned code) ∈ since s s' → code ≠ 0 →
     ∃ ob evs ocl,
       since s s' = ([(Engine.CallOpenCursor true, Engine.Returned 0);
                      (Engine.CallBeginTransaction, ob)]
                     ++ evs ++ [(Engine.CallCursorClose, ocl)])%list
       ∧ Forall (λ e, is_insert e = true) evs
       ∧ (Engine.CallCommitTransaction ∉ fst <$> since s s')
       ∧ (Engine.CallRollbackTransaction ∉ fst <$> since s s')
       ∧ (∀ z, ocl = Engine.Returned z → r = Raise AssertionError)
       ∧ (ob = Engine.Returned 0 → is_Some (Engine.txn s')))
  ∧ (Engine.CallCommitTransaction ∈ (fst <$> since s s') →
     ∃ zb evs oc ocl,
       since s s' = ([(Engine.CallOpenCursor true, Engine.Returned 0);
                      (Engine.CallBeginTransaction, Engine.Returned zb)]
                     ++ evs ++ [(Engine.CallCommitTransaction, oc);
                                (Engine.CallCursorClose, ocl)])%list
       ∧ Forall (λ e, is_insert e = true) evs
       ∧ Forall (λ e, e.2 = Engine.Returned 0) evs
       ∧ length evs = length (entries_of other)).
Proof.
  intros H. apply update_shape in H
    as [[m Hs]|(ob & evs & rl & tail & ocl & Hs & Hins & Hok & Hnz & Htxn & Htail)];
    rewrite Hs.
  { split.
    - intros k v code Hin. apply list_elem_of_singleton in Hin. discriminate.
    - intros Hin. apply list_elem_of_singleton in Hin. discriminate. }
  pose proof (insert_calls evs) as Hcalls. specialize (fun e => Hcalls e Hins).
  assert (Hno : ∀ c, (∀ k v, c ≠ Engine.CallInsert k v) → c ∉ fst <$> evs).
  { intros c Hc Hin. apply list_elem_of_fmap in Hin as (e & -> & Hin).
    destruct (Hcalls e Hin) as (k & v & He). by eapply Hc. }
  pose proof (Hno Engine.CallCommitTransaction ltac:(discriminate)) as Hnc.
  pose proof (Hno Engine.CallRollbackTransaction ltac:(discriminate)) as Hnr.
  split.
  - intros k v code Hin Hcode.
    assert ((Engine.CallInsert k v, Engine.Returned code) ∈ evs) as Hev.
    { apply elem_of_middle in Hin; [assumption|not_listed|].
      destruct Htail as [(_ & _ & oc & ->)|[(_ & orb & ->)|(e & _ & _ & -> & _)]];
        not_listed. }
    specialize (Hnz _ _ Hev Hcode). subst rl.
    destruct Htail as [(? & _)|[([m ?] & _)|(e & He & _ & -> & Hr)]]; try discriminate.
    injection He as <-.
    exists ob, evs, ocl. split; [reflexivity|]. split; [assumption|].
    split; [|split; [|split; [assumption|auto]]].
    + intros Hc. rewrite !fmap_app in Hc.
      apply elem_of_middle in Hc; [exact (Hnc Hc)|not_listed|not_listed].
    + intros Hc. rewrite !fmap_app in Hc.
      apply elem_of_middle in Hc; [exact (Hnr Hc)|not_listed|not_listed].
  - intros Hin.
    destruct Htail as [(-> & [zb ->] & oc & ->)|[(_ & orb & ->)|(e & _ & _ & -> & _)]].
    + destruct (Hok eq_refl) as [Hz Hlen]. exists zb, evs, oc, ocl. auto.
    + exfalso. rewrite !fmap_app in Hin.
      apply elem_of_middle in Hin; [exact (Hnc Hin)|not_listed|not_listed].
    + exfalso. rewrite !fmap_app in Hin.
      apply elem_of_middle in Hin; [exact (Hnc Hin)|not_listed|not_listed].
Qed.

Lemma update_nonzero_insert_status_witness :
  let other := WiredTigerDBM.Pairs [(PyBytes "asd1", PyBytes "qwe1");
                                    (PyBytes "asd2", PyBytes "qwe2")] in
  let s := store_state false ∅ [None; None; None; Some (Engine.FaultCode 5)] in
  let s' := snd (WiredTigerDBM.update WiredTigerDBM.cls other s) in
  let r : result unit := Raise AssertionError in
  (∀ k v code,
     (Engine.CallInsert k v, Engine.Returned code) ∈ since s s' → code ≠ 0 →
     ∃ ob evs ocl,
       since s s' = ([(Engine.CallOpenCursor true, Engine.Returned 0);
                      (Engine.CallBeginTransaction, ob)]
                     ++ evs ++ [(Engine.CallCursorClose, ocl)])%list
       ∧ Forall (λ e, is_insert e = true) evs
       ∧ (Engine.CallCommitTransaction ∉ fst <$> since s s')
       ∧ (Engine.CallRollbackTransaction ∉ fst <$> since s s')
       ∧ (∀ z, ocl = Engine.Returned z → r = Raise AssertionError)
       ∧ (ob = Engine.Returned 0 → is_Some (Engine.txn s')))
  ∧ (Engine.CallCommitTransaction ∈ (fst <$> since s s') →
     ∃ zb evs oc ocl,
       since s s' = ([(Engine.CallOpenCursor true, Engine.Returned 0);
                      (Engine.CallBeginTransaction, Engine.Returned zb)]
                     ++ evs ++ [(Engine.CallCommitTransaction, oc);
                                (Engine.CallCursorClose, ocl)])%list
       ∧ Forall (λ e, is_insert e = true) evs
       ∧ Forall (λ e, e.2 = Engine.Returned 0) evs
       ∧ length evs = length (entries_of other)).
Proof.
  apply (update_nonzero_insert_status WiredTigerDBM.cls
           (WiredTigerDBM.Pairs [(PyBytes "asd1", PyBytes "qwe1");
                                 (PyBytes "asd2", PyBytes "qwe2")])
           (store_state false ∅ [None; None; None; Some (Engine.FaultCode 5)])).
  vm_compute. reflexivity.
Defined.

(** The run behind the witness: the second [insert] returns status 5. *)
Example update_second_insert_returns_5 :
  let other := WiredTigerDBM.Pairs [(PyBytes "asd1", PyBytes "qwe1");
                                    (PyBytes "asd2", PyBytes "qwe2")] in
  let s := store_state false ∅ [None; None; None; Some (Engine.FaultCode 5)] in
  let s' := snd (WiredTigerDBM.update WiredTigerDBM.cls other s) in
  fst (WiredTigerDBM.update WiredTigerDBM.cls other s) = Raise AssertionError
  ∧ Engine.log s' = [(Engine.CallOpenCursor true, Engine.Returned 0);
                     (Engine.CallBeginTransaction, Engine.Returned 0);
                     (Engine.CallInsert (Some "asd1") (Some "qwe1"), Engine.Returned 0);
                     (Engine.CallInsert (Some "asd2") (Some "qwe2"), Engine.Returned 5);
                     (Engine.CallCursorClose, Engine.Returned 0)]
  ∧ Engine.txn s' = Some (Some ∅).
Proof. vm_compute. repeat split. Qed.

(** ** Atomicity of the batch update *)

(** The loop over a prefix of the entries that the codec accepts, on a
    writable store with no fault pending for these calls: every pair is
    written and logged. *)
Lemma insert_each_prefix (self : store) (pre : list (pyval * pyval))
    (kvs : list (bytes * bytes)) (rest : list (pyval * pyval)) :
  Forall2 (encodes self) pre kvs →
  ∀ k0 v0 p0 h t c tx n script log,
    Forall (λ f, f = None) (take (length kvs) script) →
    WiredTigerDBM.insert_each self (Engine.mkCursor true k0 v0 p0) (pre ++ rest)
      (Engine.mkState h (Some t) c false true tx n script log)
    = WiredTigerDBM.insert_each self
        (cursor_after kvs (Engine.mkCursor true k0 v0 p0)) rest
        (Engine.mkState h (Some (store_all kvs t)) c false true tx n
           (drop (length kvs) script) (log ++ insert_events kvs)).
Proof.
  induction 1 as [|[key value] [k v] pre kvs [Hk Hv] _ IH];
    intros k0 v0 p0 h t c tx n script log Hscript.
  - cbn. by rewrite app_nil_r.
  - cbn in Hk, Hv. cbn [app WiredTigerDBM.insert_each length].
    assert (script = [] ∨ ∃ tl, script = None :: tl) as [->|[tl ->]].
    { destruct script as [|f tl]; [by left|right].
      cbn in Hscript. apply Forall_cons in Hscript as [-> _]. eauto. }
    + exec. rewrite Hk, Hv. exec. cbn [Z.eqb].
      rewrite IH by (rewrite take_nil; constructor).
      rewrite drop_nil, <- app_assoc. reflexivity.
    + exec. rewrite Hk, Hv. exec. cbn [Z.eqb].
      cbn in Hscript. apply Forall_cons in Hscript as [_ Hscript].
      rewrite IH by assumption.
      rewrite <- app_assoc. reflexivity.
Qed.

(** X16: without faults, a batch that the codec accepts is written and
    committed: every entry is in the table afterwards. *)
Lemma update_commits (self : store) (other : WiredTigerDBM.source)
    (kvs : list (bytes * bytes)) (t : gmap string string) :
  Forall2 (encodes self) (entries_of other) kvs →
  ∃ s', WiredTigerDBM.update self other (store_state false t []) = (Ok (), s')
        ∧ Engine.table s' = Some (store_all kvs t)
        ∧ Engine.txn s' = None
        ∧ Engine.log s'
          = ([(Engine.CallOpenCursor true, Engine.Returned 0);
              (Engine.CallBeginTransaction, Engine.Returned 0)]
             ++ insert_events kvs
             ++ [(Engine.CallCommitTransaction, Engine.Returned 0);
                 (Engine.CallCursorClose, Engine.Returned 0)])%list.
Proof.
  intros Henc.
  assert (∀ cursor s,
    match other with
    | WiredTigerDBM.Mapping entries | WiredTigerDBM.Keyed entries
    | WiredTigerDBM.Pairs entries => WiredTigerDBM.insert_each self cursor entries
    end s = WiredTigerDBM.insert_each self cursor (entries_of other ++ []) s) as Hloop.
  { intros. rewrite app_nil_r. by destruct other. }
  unfold WiredTigerDBM.update, store_state. exec.
  rewrite Hloop, (insert_each_prefix self _ kvs [] Henc) by (rewrite take_nil; constructor).
  rewrite drop_nil. cbn [WiredTigerDBM.insert_each]. exec.
  eexists. split; [reflexivity|]. cbn. repeat split.
  by rewrite <- !app_assoc.
Qed.

Lemma update_commits_witness :
  ∃ s', WiredTigerDBM.update WiredTigerDBM.cls
          (WiredTigerDBM.Pairs [(PyBytes "asd2", PyBytes "qwe2");
                                (PyStr [97; 115; 100; 49]%N, PyBytes "qwe3")])
          (store_state false sample_table []) = (Ok (), s')
        ∧ Engine.table s'
          = Some (store_all [("asd2", "qwe2"); ("asd1", "qwe3")] sample_table)
        ∧ Engine.txn s' = None
        ∧ Engine.log s'
          = ([(Engine.CallOpenCursor true, Engine.Returned 0);
              (Engine.CallBeginTransaction, Engine.Returned 0)]
             ++ insert_events [("asd2", "qwe2"); ("asd1", "qwe3")]
             ++ [(Engine.CallCommitTransaction, Engine.Returned 0);
                 (Engine.CallCursorClose, Engine.Returned 0)])%list.
Proof.
  apply (update_commits WiredTigerDBM.cls
           (WiredTigerDBM.Pairs [(PyBytes "asd2", PyBytes "qwe2");
                                 (PyStr [97; 115; 100; 49]%N, PyBytes "qwe3")])
           [("asd2", "qwe2"); ("asd1", "qwe3")] sample_table).
  repeat constructor.
Defined.

(** X17: when an [insert] raises the engine's exception, the transaction is
    rolled back, the table is what it was before the call, and the caller
    gets [error] with the engine's message. *)
Lemma update_rolls_back (self : store) (pre post : list (pyval * pyval))
    (kvs : list (bytes * bytes)) (key value : pyval) (k v : bytes) (msg : string)
    (t : gmap string string) :
  Forall2 (encodes self) pre kvs → encodes self (key, value) (k, v) →
  ∃ s', WiredTigerDBM.update self (WiredTigerDBM.Pairs (pre ++ (key, value) :: post))
          (store_state false t
             (replicate (2 + length kvs) None ++ [Some (Engine.FaultRaise msg)]))
        = (Raise (error msg), s')
        ∧ Engine.table s' = Some t
        ∧ Engine.txn s' = None
        ∧ Engine.log s'
          = ([(Engine.CallOpenCursor true, Engine.Returned 0);
              (Engine.CallBeginTransaction, Engine.Returned 0)]
             ++ insert_events kvs
             ++ [(Engine.CallInsert (Some k) (Some v), Engine.Raised msg);
                 (Engine.CallRollbackTransaction, Engine.Returned 0);
                 (Engine.CallCursorClose, Engine.Returned 0)])%list.
Proof.
  intros Henc [Hk Hv]. cbn in Hk, Hv.
  unfold WiredTigerDBM.update, store_state. cbn [replicate Nat.add app]. exec.
  rewrite (insert_each_prefix self _ kvs _ Henc)
    by (rewrite take_app_length'; [by apply Forall_replicate | by rewrite length_replicate]).
  rewrite drop_app_length' by (by rewrite length_replicate).
  cbn [WiredTigerDBM.insert_each]. exec. rewrite Hk, Hv. exec.
  eexists. split; [reflexivity|]. cbn. repeat split.
  by rewrite <- !app_assoc.
Qed.

Lemma update_rolls_back_witness :
  ∃ s', WiredTigerDBM.update WiredTigerDBM.cls
          (WiredTigerDBM.Pairs ([(PyBytes "asd2", PyBytes "qwe2")]
                                ++ (PyBytes "asd3", PyBytes "qwe3") :: []))
          (store_state false sample_table
             (replicate (2 + length [("asd2", "qwe2")]) None
              ++ [Some (Engine.FaultRaise
                          "WT_ROLLBACK: conflict between concurrent operations")]))
        = (Raise (error "WT_ROLLBACK: conflict between concurrent operations"), s')
        ∧ Engine.table s' = Some sample_table
        ∧ Engine.txn s' = None
        ∧ Engine.log s'
          = ([(Engine.CallOpenCursor true, Engine.Returned 0);
              (Engine.CallBeginTransaction, Engine.Returned 0)]
             ++ insert_events [("asd2", "qwe2")]
             ++ [(Engine.CallInsert (Some "asd3") (Some "qwe3"),
                  Engine.Raised "WT_ROLLBACK: conflict between concurrent operations");
                 (Engine.CallRollbackTransaction, Engine.Returned 0);
                 (Engine.CallCursorClose, Engine.Returned 0)])%list.
Proof.
  apply (update_rolls_back WiredTigerDBM.cls [(PyBytes "asd2", PyBytes "qwe2")] []
           [("asd2", "qwe2")] (PyBytes "asd3") (PyBytes "qwe3") "asd3" "qwe3"
           "WT_ROLLBACK: conflict between concurrent operations" sample_table).
  - repeat constructor.
  - split; reflexivity.
Defined.

(** C1, the code at failing inputs.  First batch: the codec refuses the
    second entry (text that Latin-1 cannot encode) after the first one was
    inserted.  Second batch: the engine answers the second [insert] with a
    non-zero status.  In both runs the exception is none that the [except]
    clause names, so the transaction is neither rolled back nor committed:
    it is still running after the call, the first entry of the batch is
    visible in the store and the second is not. *)
Theorem update_leaves_partial_batch :
  let refused := WiredTigerDBM.Pairs [(PyBytes "asd1", PyBytes "qwe1");
                                      (PyBytes "asd2", PyStr [8364%N])] in
  let s0 := store_state false ∅ [] in
  let s1 := snd (WiredTigerDBM.update WiredTigerDBM.cls refused s0) in
  let batch := WiredTigerDBM.Pairs [(PyBytes "asd1", PyBytes "qwe1");
                                    (PyBytes "asd2", PyBytes "qwe2")] in
  let f0 := store_state false ∅ [None; None; None; Some (Engine.FaultCode 5)] in
  let f1 := snd (WiredTigerDBM.update WiredTigerDBM.cls batch f0) in
  (fst (WiredTigerDBM.update WiredTigerDBM.cls refused s0) = Raise UnicodeEncodeError
   ∧ Engine.log s1 = [(Engine.CallOpenCursor true, Engine.Returned 0);
                      (Engine.CallBeginTransaction, Engine.Returned 0);
                      (Engine.CallInsert (Some "asd1") (Some "qwe1"), Engine.Returned 0);
                      (Engine.CallCursorClose, Engine.Returned 0)]
   ∧ Engine.txn s1 = Some (Some ∅)
   ∧ fst (WiredTigerDBM.__contains__ WiredTigerDBM.cls (PyBytes "asd1") s1) = Ok true
   ∧ fst (WiredTigerDBM.__contains__ WiredTigerDBM.cls (PyBytes "asd2") s1) = Ok false)
  ∧ (fst (WiredTigerDBM.update WiredTigerDBM.cls batch f0) = Raise AssertionError
     ∧ Engine.txn f1 = Some (Some ∅)
     ∧ fst (WiredTigerDBM.__contains__ WiredTigerDBM.cls (PyBytes "asd1") f1) = Ok true
     ∧ fst (WiredTigerDBM.__contains__ WiredTigerDBM.cls (PyBytes "asd2") f1) = Ok false).
Proof. vm_compute. repeat split. Qed.

(** ** The single-key methods against the table *)

(** What each method returns and leaves behind, read off the table of a
    store without pending faults. *)

(** X1: on a readable store [store[key]] returns the decoded value that the
    table holds under the encoded key, and raises the [KeyError] that names
    the key when it holds none.  The table is unchanged, and the engine is
    asked for one cursor, one search and the close of the cursor, in this
    order. *)
Theorem getitem_reads_table (self : store) (key : pyval) (k : bytes)
    (t : gmap string string) (s : Engine.state) :
  pre_key self key = Ok k → readable s t →
  ∃ s',
    WiredTigerDBM.__getitem__ self key s
    = (match t !! k with
       | Some v => post_value self v
       | None => Raise (KeyError key)
       end, s')
    ∧ Engine.table s' = Some t
    ∧ since s s'
      = [(Engine.CallOpenCursor false, Engine.Returned 0);
         (Engine.CallSearch (Some k),
          Engine.Returned (match t !! k with
                          | Some _ => 0
                          | None => Engine.WT_NOTFOUND
                          end));
         (Engine.CallCursorClose, Engine.Returned 0)].
Proof.
  intros Hk (Hs & Ht & Hf). destruct s; simpl in *; subst.
  unfold WiredTigerDBM.__getitem__, since. exec. rewrite Hk. exec.
  destruct (t !! k) as [v|]; cbn; [destruct (post_value self v)|];
    eexists; (split; [reflexivity|]); (split; [reflexivity|]);
    cbn; rewrite <- !app_assoc; apply drop_app_length.
Qed.

Lemma getitem_reads_table_witness :
  ∃ s',
    WiredTigerDBM.__getitem__ WiredTigerDBM.cls (PyBytes "asd1")
      (store_state false sample_table [])
    = (match sample_table !! "asd1" with
       | Some v => post_value WiredTigerDBM.cls v
       | None => Raise (KeyError (PyBytes "asd1"))
       end, s')
    ∧ Engine.table s' = Some sample_table
    ∧ since (store_state false sample_table []) s'
      = [(Engine.CallOpenCursor false, Engine.Returned 0);
         (Engine.CallSearch (Some "asd1"),
          Engine.Returned (match sample_table !! "asd1" with
                           | Some _ => 0
                           | None => Engine.WT_NOTFOUND
                           end));
         (Engine.CallCursorClose, Engine.Returned 0)].
Proof.
  apply (getitem_reads_table WiredTigerDBM.cls (PyBytes "asd1") "asd1"
           sample_table (store_state false sample_table [])).
  - reflexivity.
  - repeat split.
Defined.

(** X2: [key in store] is true exactly when the table has an entry under the
    encoded key; the table and the number of open cursors are as before. *)
Theorem contains_reads_table (self : store) (key : pyval) (k : bytes)
    (t : gmap string string) (s : Engine.state) :
  pre_key self key = Ok k → readable s t →
  ∃ s',
    WiredTigerDBM.__contains__ self key s = (Ok (bool_decide (is_Some (t !! k))), s')
    ∧ Engine.table s' = Some t
    ∧ Engine.cursors s' = Engine.cursors s.
Proof.
  intros Hk (Hs & Ht & Hf). destruct s; simpl in *; subst.
  unfold WiredTigerDBM.__contains__. exec. rewrite Hk. exec.
  destruct (t !! k) as [v|] eqn:E; cbn; eexists; repeat split.
Qed.

Lemma contains_reads_table_witness :
  ∃ s',
    WiredTigerDBM.__contains__ WiredTigerDBM.cls (PyBytes "qwe1")
      (store_state false sample_table [])
    = (Ok (bool_decide (is_Some (sample_table !! "qwe1"))), s')
    ∧ Engine.table s' = Some sample_table
    ∧ Engine.cursors s' = Engine.cursors (store_state false sample_table []).
Proof.
  apply (contains_reads_table WiredTigerDBM.cls (PyBytes "qwe1") "qwe1"
           sample_table (store_state false sample_table [])).
  - reflexivity.
  - repeat split.
Defined.

(** X3: [get] returns the decoded value of a present key and its default
    argument for an absent one, and leaves the table as it was. *)
Theorem get_reads_table (self : store) (key : pyval) (default : option pyval)
    (k : bytes) (t : gmap string string) (s : Engine.state) :
  pre_key self key = Ok k → readable s t →
  ∃ s',
    WiredTigerDBM.get self key default s
    = (match t !! k with
       | Some v => post_value self v
       | None => Ok (WiredTigerDBM.default_arg default)
       end, s')
    ∧ Engine.table s' = Some t.
Proof.
  intros Hk (Hs & Ht & Hf). destruct s; simpl in *; subst.
  unfold WiredTigerDBM.get. exec. rewrite Hk. exec.
  destruct (t !! k) as [v|]; cbn; [destruct (post_value self v)|];
    eexists; split; reflexivity.
Qed.

Lemma get_reads_table_witness :
  ∃ s',
    WiredTigerDBM.get WiredTigerDBM.cls (PyBytes "asd1") (Some PyNone)
      (store_state false sample_table [])
    = (match sample_table !! "asd1" with
       | Some v => post_value WiredTigerDBM.cls v
       | None => Ok (WiredTigerDBM.default_arg (Some PyNone))
       end, s')
    ∧ Engine.table s' = Some sample_table.
Proof.
  apply (get_reads_table WiredTigerDBM.cls (PyBytes "asd1") (Some PyNone) "asd1"
           sample_table (store_state false sample_table [])).
  - reflexivity.
  - repeat split.
Defined.

(** X4: [del store[key]] on a writable store removes the entry of the encoded
    key and no other; for an absent key it raises the [KeyError] that
    names the key and the table is unchanged. *)
Theorem delitem_removes (self : store) (key : pyval) (k : bytes)
    (t : gmap string string) (s : Engine.state) :
  pre_key self key = Ok k → writable s t →
  ∃ s',
    WiredTigerDBM.__delitem__ self key s
    = (match t !! k with
       | Some _ => Ok ()
       | None => Raise (KeyError key)
       end, s')
    ∧ Engine.table s' = Some (delete k t)
    ∧ (t !! k = None → Engine.table s' = Some t).
Proof.
  intros Hk [(Hs & Ht & Hf) Hro]. destruct s; simpl in *; subst.
  unfold WiredTigerDBM.__delitem__. exec. rewrite Hk. exec.
  destruct (t !! k) as [v|] eqn:E; cbn; eexists; (split; [reflexivity|]); cbn.
  - split; [reflexivity|discriminate].
  - rewrite delete_id by assumption. auto.
Qed.

Lemma delitem_removes_witness :
  ∃ s',
    WiredTigerDBM.__delitem__ WiredTigerDBM.cls (PyBytes "asd1")
      (store_state false sample_table [])
    = (match sample_table !! "asd1" with
       | Some _ => Ok ()
       | None => Raise (KeyError (PyBytes "asd1"))
       end, s')
    ∧ Engine.table s' = Some (delete "asd1" sample_table)
    ∧ (sample_table !! "asd1" = None → Engine.table s' = Some sample_table).
Proof.
  apply (delitem_removes WiredTigerDBM.cls (PyBytes "asd1") "asd1"
           sample_table (store_state false sample_table [])).
  - reflexivity.
  - repeat split.
Defined.

(** X6: [setdefault] of a present key returns the decoded stored value and
    writes nothing: the default is not even encoded, and the engine sees no
    [insert].  The decoding runs inside the [try] suite, so an engine
    exception raised by an overriding [_post_value] comes out as [error]. *)
Theorem setdefault_present (self : store) (key default : pyval) (k v : bytes)
    (t : gmap string string) (s : Engine.state) :
  pre_key self key = Ok k → readable s t → t !! k = Some v →
  ∃ s',
    WiredTigerDBM.setdefault self key default s
    = (match post_value self v with
       | Raise (WiredTigerError msg) => Raise (error msg)
       | r => r
       end, s')
    ∧ Engine.table s' = Some t
    ∧ since s s'
      = [(Engine.CallOpenCursor false, Engine.Returned 0);
         (Engine.CallSearch (Some k), Engine.Returned 0);
         (Engine.CallCursorClose, Engine.Returned 0)].
Proof.
  intros Hk (Hs & Ht & Hf) Hv. destruct s; simpl in *; subst.
  unfold WiredTigerDBM.setdefault, since. exec. rewrite Hk. exec. rewrite Hv. cbn.
  destruct (post_value self v) as [r|[]];
    eexists; (split; [reflexivity|]); (split; [reflexivity|]);
    cbn; rewrite <- !app_assoc; apply drop_app_length.
Qed.

Lemma setdefault_present_witness :
  ∃ s',
    WiredTigerDBM.setdefault WiredTigerDBM.cls (PyBytes "asd1") (PyBytes "qwe3")
      (store_state false sample_table [])
    = (match post_value WiredTigerDBM.cls "qwe1" with
       | Raise (WiredTigerError msg) => Raise (error msg)
       | r => r
       end, s')
    ∧ Engine.table s' = Some sample_table
    ∧ since (store_state false sample_table []) s'
      = [(Engine.CallOpenCursor false, Engine.Returned 0);
         (Engine.CallSearch (Some "asd1"), Engine.Returned 0);
         (Engine.CallCursorClose, Engine.Returned 0)].
Proof.
  apply (setdefault_present WiredTigerDBM.cls (PyBytes "asd1") (PyBytes "qwe3")
           "asd1" "qwe1" sample_table (store_state false sample_table [])).
  - reflexivity.
  - repeat split.
  - reflexivity.
Defined.

(** X7: [setdefault] of an absent key stores the encoded default under the
    encoded key and returns the default object it was given, not the
    decoded bytes. *)
Theorem setdefault_absent (self : store) (key default : pyval) (k v : bytes)
    (t : gmap string string) (s : Engine.state) :
  pre_key self key = Ok k → pre_value self default = Ok v → writable s t →
  t !! k = None →
  ∃ s',
    WiredTigerDBM.setdefault self key default s = (Ok default, s')
    ∧ Engine.table s' = Some (<[k := v]> t)
    ∧ since s s'
      = [(Engine.CallOpenCursor false, Engine.Returned 0);
         (Engine.CallSearch (Some k), Engine.Returned Engine.WT_NOTFOUND);
         (Engine.CallInsert (Some k) (Some v), Engine.Returned 0);
         (Engine.CallCursorClose, Engine.Returned 0)].
Proof.
  intros Hk Hd [(Hs & Ht & Hf) Hro] Hv. destruct s; simpl in *; subst.
  unfold WiredTigerDBM.setdefault, since. exec. rewrite Hk. exec. rewrite Hv. cbn.
  rewrite Hd. exec. rewrite Hv. cbn.
  eexists. split; [reflexivity|]. split; [reflexivity|].
  cbn. rewrite <- !app_assoc. apply drop_app_length.
Qed.

Lemma setdefault_absent_witness :
  ∃ s',
    WiredTigerDBM.setdefault WiredTigerDBM.cls (PyBytes "asd3")
      (PyStr [113; 119; 101; 51]%N) (store_state false sample_table [])
    = (Ok (PyStr [113; 119; 101; 51]%N), s')
    ∧ Engine.table s' = Some (<["asd3" := "qwe3"]> sample_table)
    ∧ since (store_state false sample_table []) s'
      = [(Engine.CallOpenCursor false, Engine.Returned 0);
         (Engine.CallSearch (Some "asd3"), Engine.Returned Engine.WT_NOTFOUND);
         (Engine.CallInsert (Some "asd3") (Some "qwe3"), Engine.Returned 0);
         (Engine.CallCursorClose, Engine.Returned 0)].
Proof.
  apply (setdefault_absent WiredTigerDBM.cls (PyBytes "asd3")
           (PyStr [113; 119; 101; 51]%N) "asd3" "qwe3" sample_table
           (store_state false sample_table [])).
  - reflexivity.
  - reflexivity.
  - repeat split.
  - reflexivity.
Defined.

(** X5: after [store[key] = value] a lookup of any key finds the new value
    under the written key and the former contents under every other key. *)
Theorem setitem_then_getitem_any_key (self : store) (key value key' : pyval)
    (k v k' : bytes) (t : gmap string string) (s : Engine.state) :
  pre_key self key = Ok k → pre_value self value = Ok v →
  pre_key self key' = Ok k' → writable s t →
  ∃ s1 s2,
    WiredTigerDBM.__setitem__ self key value s = (Ok (), s1)
    ∧ WiredTigerDBM.__getitem__ self key' s1
      = (match (if decide (k' = k) then Some v else t !! k') with
         | Some x => post_value self x
         | None => Raise (KeyError key')
         end, s2)
    ∧ Engine.table s2 = Some (<[k := v]> t).
Proof.
  intros Hk Hv Hk' [(Hs & Ht & Hf) Hro]. destruct s; simpl in *; subst.
  assert (<[k := v]> t !! k' = if decide (k' = k) then Some v else t !! k') as Hl.
  { destruct (decide (k' = k)) as [->|Hne].
    - apply lookup_insert_eq.
    - by apply lookup_insert_ne. }
  rewrite <- Hl. clear Hl.
  cut (∃ s1, WiredTigerDBM.__setitem__ self key value
               (Engine.mkState home (Some t) conn false true txn cursors [] log)
             = (Ok (), s1)
             ∧ ∃ s2, WiredTigerDBM.__getitem__ self key' s1
                     = (match <[k := v]> t !! k' with
                        | Some x => post_value self x
                        | None => Raise (KeyError key')
                        end, s2)
                     ∧ Engine.table s2 = Some (<[k := v]> t)).
  { intros (s1 & H1 & s2 & H2 & H3). eauto. }
  unfold WiredTigerDBM.__setitem__, WiredTigerDBM.__getitem__.
  exec. rewrite Hk, Hv, Hk'. exec. cbn. eexists.
  split; [reflexivity|]. exec.
  destruct (<[k := v]> t !! k') as [x|]; cbn;
    [destruct (post_value self x)|]; eexists; split; reflexivity.
Qed.

Lemma setitem_then_getitem_any_key_witness :
  ∃ s1 s2,
    WiredTigerDBM.__setitem__ WiredTigerDBM.cls (PyStr [97; 115; 100; 49]%N)
      (PyBytes "qwe2") (store_state false sample_table []) = (Ok (), s1)
    ∧ WiredTigerDBM.__getitem__ WiredTigerDBM.cls (PyBytes "asd1") s1
      = (match (if decide ("asd1" = "asd1") then Some "qwe2"
                else sample_table !! "asd1") with
         | Some x => post_value WiredTigerDBM.cls x
         | None => Raise (KeyError (PyBytes "asd1"))
         end, s2)
    ∧ Engine.table s2 = Some (<["asd1" := "qwe2"]> sample_table).
Proof.
  apply (setitem_then_getitem_any_key WiredTigerDBM.cls
           (PyStr [97; 115; 100; 49]%N) (PyBytes "qwe2") (PyBytes "asd1")
           "asd1" "qwe2" "asd1" sample_table (store_state false sample_table [])).
  - reflexivity.
  - reflexivity.
  - reflexivity.
  - repeat split.
Defined.

(** ** The codec of the base class *)

(** [encode_latin1] succeeds exactly on text whose code points are all below
    256, and [decode_latin1] reads the text back from its result. *)
Lemma encode_latin1_ok (s : list N) (b : bytes) :
  encode_latin1 s = Ok b ↔ Forall (λ c, (c < 256)%N) s ∧ decode_latin1 b = s.
Proof.
  split.
  - revert b. induction s as [|c s IH]; intros b H; cbn in H.
    + injection H as <-. split; [constructor|reflexivity].
    + destruct (N.ltb_spec c 256) as [Hc|Hc]; [|discriminate].
      destruct (encode_latin1 s) as [b'|e]; [|discriminate].
      injection H as <-. destruct (IH b' eq_refl) as [Hall Hdec].
      split; [by constructor|]. unfold decode_latin1 in *. cbn.
      rewrite Hdec. f_equal. by apply N_ascii_embedding.
  - intros [Hall <-]. clear Hall. induction b as [|a b IH]; [reflexivity|].
    unfold decode_latin1 in *. cbn.
    pose proof (N_ascii_bounded a) as Hb. apply N.ltb_lt in Hb. rewrite Hb.
    rewrite IH, ascii_N_embedding. reflexivity.
Qed.

(** [encode_latin1] fails only with [UnicodeEncodeError], and exactly when a
    code point is 256 or more. *)
Lemma encode_latin1_raise (s : list N) (e : exn) :
  encode_latin1 s = Raise e ↔
  e = UnicodeEncodeError ∧ Exists (λ c, (256 ≤ c)%N) s.
Proof.
  split.
  - induction s as [|c s IH]; intros H; cbn in H; [discriminate|].
    destruct (N.ltb_spec c 256) as [Hc|Hc].
    + destruct (encode_latin1 s) as [b'|e']; [discriminate|].
      injection H as ->. destruct (IH eq_refl) as [-> Hex]. split; [done|by right].
    + injection H as <-. split; [done|by left].
  - intros [-> Hex]. induction Hex as [c s Hc|c s Hex IH]; cbn.
    + apply N.ltb_ge in Hc. by rewrite Hc.
    + destruct (c <? 256)%N; [|reflexivity]. by rewrite IH.
Qed.

(** X11: the codec of the base class.  [_pre_key] accepts bytes, which it
    passes through, and text that Latin-1 can encode, which it encodes
    reversibly; [_pre_value] accepts the same objects with the same result;
    [_post_key] and [_post_value] return the stored bytes as they are. *)
Theorem codec_accepts (x : pyval) (b : bytes) :
  (WiredTigerDBM._pre_key x = Ok b ↔
   x = PyBytes b
   ∨ ∃ s, x = PyStr s ∧ Forall (λ c, (c < 256)%N) s ∧ decode_latin1 b = s)
  ∧ (WiredTigerDBM._pre_value x = Ok b ↔ WiredTigerDBM._pre_key x = Ok b)
  ∧ WiredTigerDBM._post_key b = Ok (PyBytes b)
  ∧ WiredTigerDBM._post_value b = Ok (PyBytes b).
Proof.
  split; [|split; [|split; reflexivity]].
  - destruct x; cbn; split;
      try (intros [?|(? & ? & _)]; discriminate); try discriminate.
    + intros [= ->]. by left.
    + intros [[= ->]|(? & ? & _)]; [reflexivity|discriminate].
    + intros H. right. exists s. split; [reflexivity|]. by apply encode_latin1_ok.
    + intros [?|(s' & [= <-] & H)]; [discriminate|]. by apply encode_latin1_ok.
  - destruct x; reflexivity.
Qed.

(** X12: the codec of the base class raises [TypeError] carrying the object
    for everything that is neither bytes nor text, [UnicodeEncodeError] for
    text with a code point above 255, and nothing else; [_pre_value]
    rejects what [_pre_key] rejects. *)
Theorem codec_rejects (x : pyval) (e : exn) :
  (WiredTigerDBM._pre_key x = Raise e ↔
   (e = TypeError x ∧ (∀ b, x ≠ PyBytes b) ∧ (∀ s, x ≠ PyStr s))
   ∨ (e = UnicodeEncodeError ∧ ∃ s, x = PyStr s ∧ Exists (λ c, (256 ≤ c)%N) s))
  ∧ (WiredTigerDBM._pre_value x = Raise e ↔ WiredTigerDBM._pre_key x = Raise e).
Proof.
  split; [|destruct x; reflexivity].
  destruct x; cbn; split; try discriminate;
    try (intros [= <-]; left; repeat split; discriminate);
    try (intros [(-> & _)|(_ & ? & ? & _)]; [reflexivity|discriminate]).
  - intros [(_ & H & _)|(_ & ? & ? & _)]; [by destruct (H b)|discriminate].
  - intros H. apply encode_latin1_raise in H as [-> H]. right. eauto.
  - intros [(_ & _ & H)|(-> & s' & [= <-] & H)]; [by destruct (H s)|].
    by apply encode_latin1_raise.
Qed.

(** ** Rejected writes, [clear] and read-only stores *)

(** What the codec of the base class can raise. *)
Lemma base_codec_error (x : pyval) (e : exn) :
  WiredTigerDBM._pre_key x = Raise e → e = TypeError x ∨ e = UnicodeEncodeError.
Proof.
  destruct x; cbn; try (intros [= <-]; by left); try discriminate.
  intros H. right. induction s as [|c s IH]; cbn in H; [discriminate|].
  destruct (c <? 256)%N; [|congruence].
  destruct (encode_latin1 s); [discriminate|]. injection H as ->. by apply IH.
Qed.

(** X13: when the codec of the base class rejects the key, or accepts the key
    and rejects the value, [store[key] = value] raises the codec's own
    exception unconverted.  The cursor was opened before the codec ran and
    is closed again; nothing is inserted. *)
Theorem setitem_rejected_by_codec (key value : pyval) (e : exn)
    (t : gmap string string) (s : Engine.state) :
  WiredTigerDBM._pre_key key = Raise e
  ∨ (∃ k, WiredTigerDBM._pre_key key = Ok k ∧ WiredTigerDBM._pre_value value = Raise e) →
  readable s t →
  ∃ s',
    WiredTigerDBM.__setitem__ WiredTigerDBM.cls key value s = (Raise e, s')
    ∧ Engine.table s' = Some t
    ∧ since s s' = [(Engine.CallOpenCursor true, Engine.Returned 0);
                    (Engine.CallCursorClose, Engine.Returned 0)].
Proof.
  intros Hrej (Hs & Ht & Hf). destruct s; simpl in *; subst.
  assert (e = TypeError key ∨ e = TypeError value ∨ e = UnicodeEncodeError) as He.
  { destruct Hrej as [H|(k & _ & H)].
    - apply base_codec_error in H as [->| ->]; auto.
    - assert (WiredTigerDBM._pre_key value = Raise e) as H' by (by destruct value).
      apply base_codec_error in H' as [->| ->]; auto. }
  unfold WiredTigerDBM.__setitem__, since. exec. cbn [pre_key pre_value WiredTigerDBM.cls].
  destruct Hrej as [H|(k & Hk & H)]; [rewrite H|rewrite Hk, H];
    destruct He as [->|[->| ->]]; cbn;
    eexists; (split; [reflexivity|]); (split; [reflexivity|]);
    cbn; rewrite <- !app_assoc; apply drop_app_length.
Qed.

Lemma setitem_rejected_by_codec_witness :
  ∃ s',
    WiredTigerDBM.__setitem__ WiredTigerDBM.cls (PyInt 5) (PyBytes "qwe1")
      (store_state true sample_table [])
    = (Raise (TypeError (PyInt 5)), s')
    ∧ Engine.table s' = Some sample_table
    ∧ since (store_state true sample_table []) s'
      = [(Engine.CallOpenCursor true, Engine.Returned 0);
         (Engine.CallCursorClose, Engine.Returned 0)].
Proof.
  apply (setitem_rejected_by_codec (PyInt 5) (PyBytes "qwe1") (TypeError (PyInt 5))
           sample_table (store_state true sample_table [])).
  - left. reflexivity.
  - repeat split.
Defined.

(** X21: [clear] on a writable store drops the table without force and
    creates it again: the store is empty afterwards. *)
Theorem clear_empties_table (t : gmap string string) (s : Engine.state) :
  writable s t →
  ∃ s',
    WiredTigerDBM.clear s = (Ok (), s')
    ∧ Engine.table s' = Some ∅
    ∧ since s s' = [(Engine.CallDrop false, Engine.Returned 0);
                    (Engine.CallCreate, Engine.Returned 0)].
Proof.
  intros [(Hs & Ht & Hf) Hro]. destruct s; simpl in *; subst.
  unfold WiredTigerDBM.clear, WiredTigerDBM._drop, WiredTigerDBM._create, since.
  exec. cbn. eexists. split; [reflexivity|]. split; [reflexivity|].
  cbn. rewrite <- !app_assoc. apply drop_app_length.
Qed.

Lemma clear_empties_table_witness :
  ∃ s',
    WiredTigerDBM.clear (store_state false sample_table []) = (Ok (), s')
    ∧ Engine.table s' = Some ∅
    ∧ since (store_state false sample_table []) s'
      = [(Engine.CallDrop false, Engine.Returned 0);
         (Engine.CallCreate, Engine.Returned 0)].
Proof.
  apply (clear_empties_table sample_table (store_state false sample_table [])).
  repeat split.
Defined.

(** X22: on a store opened read-only, an assignment and [clear] raise [error]
    with the engine's message and the table keeps its contents. *)
Theorem read_only_store_refuses_writes (self : store) (key value : pyval)
    (k v : bytes) (t : gmap string string) (s : Engine.state) :
  pre_key self key = Ok k → pre_value self value = Ok v →
  readable s t → Engine.readonly s = true →
  (∃ s', WiredTigerDBM.__setitem__ self key value s
           = (Raise (error "Operation not supported"), s')
         ∧ Engine.table s' = Some t)
  ∧ (∃ s', WiredTigerDBM.clear s = (Raise (error "Operation not supported"), s')
           ∧ Engine.table s' = Some t).
Proof.
  intros Hk Hv (Hs & Ht & Hf) Hro. destruct s; simpl in *; subst.
  unfold WiredTigerDBM.__setitem__, WiredTigerDBM.clear, WiredTigerDBM._drop,
    WiredTigerDBM._create.
  split; exec; rewrite ?Hk, ?Hv; exec; cbn; eexists; split; reflexivity.
Qed.

Lemma read_only_store_refuses_writes_witness :
  (∃ s', WiredTigerDBM.__setitem__ WiredTigerDBM.cls (PyBytes "a") (PyBytes "a")
           (store_state true sample_table [])
         = (Raise (error "Operation not supported"), s')
         ∧ Engine.table s' = Some sample_table)
  ∧ (∃ s', WiredTigerDBM.clear (store_state true sample_table [])
           = (Raise (error "Operation not supported"), s')
           ∧ Engine.table s' = Some sample_table).
Proof.
  apply (read_only_store_refuses_writes WiredTigerDBM.cls (PyBytes "a") (PyBytes "a")
           "a" "a" sample_table (store_state true sample_table [])).
  - reflexivity.
  - reflexivity.
  - repeat split.
  - reflexivity.
Defined.

(** ** Opening, in every mode *)

(** X23: mode [n], on a path that exists, opens the connection with [create],
    drops the table with force and creates it: the store starts empty
    whatever the table held.  These four engine calls are all it makes. *)
Theorem open_new_resets_table (cls : store) (file : string) (h : Engine.location)
    (t0 : option (gmap string string)) :
  h ≠ Engine.NoDirectory →
  ∃ s',
    WiredTigerDBM.open cls file "n" (closed_state h t0) = (Ok cls, s')
    ∧ Engine.table s' = Some ∅
    ∧ Engine.session s' = true ∧ Engine.conn s' = true
    ∧ Engine.readonly s' = false
    ∧ Engine.log s'
      = [(Engine.CallWiredtigerOpen "create,log=(enabled=false),verbose=[]",
          Engine.Returned 0);
         (Engine.CallOpenSession, Engine.Returned 0);
         (Engine.CallDrop true, Engine.Returned 0);
         (Engine.CallCreate, Engine.Returned 0)].
Proof.
  intros Hh. destruct h; [done| |]; destruct t0; exec_open;
    eexists; repeat split.
Qed.

Lemma open_new_resets_table_witness :
  ∃ s',
    WiredTigerDBM.open WiredTigerDBM.cls "./test.db" "n"
      (closed_state Engine.Database (Some sample_table))
    = (Ok WiredTigerDBM.cls, s')
    ∧ Engine.table s' = Some ∅
    ∧ Engine.session s' = true ∧ Engine.conn s' = true
    ∧ Engine.readonly s' = false
    ∧ Engine.log s'
      = [(Engine.CallWiredtigerOpen "create,log=(enabled=false),verbose=[]",
          Engine.Returned 0);
         (Engine.CallOpenSession, Engine.Returned 0);
         (Engine.CallDrop true, Engine.Returned 0);
         (Engine.CallCreate, Engine.Returned 0)].
Proof.
  apply (open_new_resets_table WiredTigerDBM.cls "./test.db" Engine.Database
           (Some sample_table)).
  discriminate.
Defined.

(** X24: mode [c] succeeds whatever the path holds, creates what is missing
    and keeps an existing table with its contents. *)
Theorem open_create_keeps_table (cls : store) (file : string) (h : Engine.location)
    (t0 : option (gmap string string)) :
  ∃ s',
    WiredTigerDBM.open cls file "c" (closed_state h t0) = (Ok cls, s')
    ∧ Engine.table s' = Some (default ∅ t0)
    ∧ Engine.home s' = Engine.Database
    ∧ Engine.session s' = true ∧ Engine.conn s' = true
    ∧ Engine.readonly s' = false.
Proof.
  destruct h, t0; exec_open; eexists; repeat split.
Qed.

(** X25: modes [r] and [w] open an existing store without touching its
    contents; the connection is read-only exactly in mode [r]. *)
Theorem open_existing_store (cls : store) (file mode : string)
    (t : gmap string string) :
  mode = "r" ∨ mode = "w" →
  ∃ s',
    WiredTigerDBM.open cls file mode (closed_state Engine.Database (Some t))
    = (Ok cls, s')
    ∧ Engine.table s' = Some t
    ∧ Engine.session s' = true ∧ Engine.conn s' = true
    ∧ Engine.readonly s' = String.eqb mode "r"
    ∧ Engine.cursors s' = 0%nat.
Proof.
  intros [-> | ->]; exec_open; eexists; repeat split.
Qed.

Lemma open_existing_store_witness :
  ∃ s',
    WiredTigerDBM.open WiredTigerDBM.cls "./test.db" "r"
      (closed_state Engine.Database (Some sample_table))
    = (Ok WiredTigerDBM.cls, s')
    ∧ Engine.table s' = Some sample_table
    ∧ Engine.session s' = true ∧ Engine.conn s' = true
    ∧ Engine.readonly s' = String.eqb "r" "r"
    ∧ Engine.cursors s' = 0%nat.
Proof.
  apply (open_existing_store WiredTigerDBM.cls "./test.db" "r" sample_table).
  left. reflexivity.
Defined.

(** X26: modes [r] and [w] on a database without the table raise
    [error] with the text [Uninitialized database], and session and
    connection are closed again before the exception leaves [__init__]. *)
Theorem open_uninitialized_closes (cls : store) (file mode : string) :
  mode = "r" ∨ mode = "w" →
  ∃ s',
    WiredTigerDBM.open cls file mode (closed_state Engine.Database None)
    = (Raise (error "Uninitialized database"), s')
    ∧ Engine.session s' = false ∧ Engine.conn s' = false
    ∧ Engine.table s' = None.
Proof.
  intros [-> | ->]; exec_open; eexists; repeat split.
Qed.

Lemma open_uninitialized_closes_witness :
  ∃ s',
    WiredTigerDBM.open WiredTigerDBM.cls "./test.db" "w"
      (closed_state Engine.Database None)
    = (Raise (error "Uninitialized database"), s')
    ∧ Engine.session s' = false ∧ Engine.conn s' = false
    ∧ Engine.table s' = None.
Proof.
  apply (open_uninitialized_closes WiredTigerDBM.cls "./test.db" "w").
  right. reflexivity.
Defined.

(** X28: when creating or dropping the table raises in modes [c] and [n], the
    exception is converted, but no [close] callback was registered on that
    [with] block: session and connection stay open. *)
Theorem init_create_failure_keeps_handles (msg : string) (read_only : bool)
    (t : option (gmap string string)) :
  let translated : result unit :=
    Raise (if String.prefix "WT_PANIC:" msg then SystemExit msg else error msg) in
  let c := WiredTigerDBM.__init__ "c"
             (connected_state read_only t [None; Some (Engine.FaultRaise msg)]) in
  let n := WiredTigerDBM.__init__ "n"
             (connected_state read_only t [None; Some (Engine.FaultRaise msg)]) in
  fst c = translated
  ∧ Engine.session (snd c) = true ∧ Engine.conn (snd c) = true
  ∧ Engine.log (snd c) = [(Engine.CallOpenSession, Engine.Returned 0);
                          (Engine.CallCreate, Engine.Raised msg)]
  ∧ fst n = translated
  ∧ Engine.session (snd n) = true ∧ Engine.conn (snd n) = true
  ∧ Engine.log (snd n) = [(Engine.CallOpenSession, Engine.Returned 0);
                          (Engine.CallDrop true, Engine.Raised msg)].
Proof.
  intros translated c n. subst translated c n. exec_open.
  destruct (String.prefix "WT_PANIC:" msg); repeat split.
Qed.

(** X29: when [open_session] raises, [__init__] closes the connection and
    raises [error] with the engine's message, in every mode. *)
Theorem init_session_failure_closes_connection (mode msg : string)
    (read_only : bool) (t : option (gmap string string)) :
  let r := WiredTigerDBM.__init__ mode
             (connected_state read_only t [Some (Engine.FaultRaise msg)]) in
  fst r = Raise (error msg)
  ∧ Engine.conn (snd r) = false ∧ Engine.session (snd r) = false
  ∧ Engine.log (snd r) = [(Engine.CallOpenSession, Engine.Raised msg);
                          (Engine.CallConnClose, Engine.Returned 0)].
Proof.
  intros r. subst r. exec_open. repeat split.
Qed.

(** X27: an engine exception from [wiredtiger_open] reaches the caller of
    [open] as [SystemExit] when its message starts with [WT_PANIC:] and as
    [error] otherwise; nothing is left open. *)
Theorem open_translates_connection_failure (cls : store) (file mode msg : string)
    (h : Engine.location) (t : option (gmap string string)) :
  mode = "r" ∨ mode = "w" ∨ mode = "c" ∨ mode = "n" →
  let s := Engine.mkState h t false false false None 0
             [Some (Engine.FaultRaise msg)] [] in
  fst (WiredTigerDBM.open cls file mode s)
  = Raise (if String.prefix "WT_PANIC:" msg then SystemExit msg else error msg)
  ∧ Engine.conn (snd (WiredTigerDBM.open cls file mode s)) = false
  ∧ Engine.session (snd (WiredTigerDBM.open cls file mode s)) = false.
Proof.
  intros [-> | [-> | [-> | ->]]] s; subst s; destruct h; exec_open;
    destruct (String.prefix "WT_PANIC:" msg); repeat split.
Qed.

Lemma open_translates_connection_failure_witness :
  let s := Engine.mkState Engine.Database (Some sample_table) false false false None 0
             [Some (Engine.FaultRaise "Permission denied")] [] in
  fst (WiredTigerDBM.open WiredTigerDBM.cls "./test.db" "w" s)
  = Raise (if String.prefix "WT_PANIC:" "Permission denied"
           then SystemExit "Permission denied" else error "Permission denied")
  ∧ Engine.conn (snd (WiredTigerDBM.open WiredTigerDBM.cls "./test.db" "w" s)) = false
  ∧ Engine.session (snd (WiredTigerDBM.open WiredTigerDBM.cls "./test.db" "w" s)) = false.
Proof.
  apply (open_translates_connection_failure WiredTigerDBM.cls "./test.db" "w"
           "Permission denied" Engine.Database (Some sample_table)).
  right. left. reflexivity.
Defined.

(** ** Cursors are released *)

(** A method body run between [open_cursor] and the [finally] clause: either
    the cursor was never opened, or closing it is the last engine call. *)
Lemma scoped_cursor {A : Type} (ow : bool) (body : Engine.cursor → M A)
    (s : Engine.state) :
  releases_cursor ow s
    (snd ((engine_handle (Engine.open_cursor ow) ≫= λ cursor,
           try_finally (body cursor) (WiredTigerDBM.finally_close cursor)) s)).
Proof.
  destruct ((engine_handle (Engine.open_cursor ow) ≫= λ cursor,
             try_finally (body cursor) (WiredTigerDBM.finally_close cursor)) s)
    as [r s'] eqn:H. cbn [snd].
  apply bind_inv in H as [(cursor & s1 & Ho & H)|(e & Ho & ->)];
    apply engine_handle_inv in Ho as (oo & x & Ho & Hoo);
    apply open_cursor_event in Ho as [Hlog1 _].
  - right. apply try_finally_inv in H as (rb & s2 & rf & _ & Hfin & _).
    apply finally_close_inv in Hfin as (o & Hlog & _). exists o.
    rewrite Hlog. apply last_snoc.
  - left. destruct oo as [z|m]; [discriminate|]. eauto.
Qed.

(** X15: every single-key method and [update] closes its cursor on every
    path, normal or exceptional: unless [open_cursor] itself raised, the
    last engine call the method makes is the cursor's [close]. *)
Theorem cursor_released_on_every_path (self : store) (key value : pyval)
    (default : option pyval) (other : WiredTigerDBM.source) (s : Engine.state) :
  releases_cursor false s (snd (WiredTigerDBM.__getitem__ self key s))
  ∧ releases_cursor true s (snd (WiredTigerDBM.__setitem__ self key value s))
  ∧ releases_cursor false s (snd (WiredTigerDBM.__delitem__ self key s))
  ∧ releases_cursor false s (snd (WiredTigerDBM.__contains__ self key s))
  ∧ releases_cursor false s (snd (WiredTigerDBM.pop self key default s))
  ∧ releases_cursor false s (snd (WiredTigerDBM.get self key default s))
  ∧ releases_cursor false s (snd (WiredTigerDBM.setdefault self key value s))
  ∧ releases_cursor true s (snd (WiredTigerDBM.update self other s)).
Proof.
  repeat split; apply scoped_cursor.
Qed.

(** X20: a generator of [keys], [items] or [values] either yields an item and
    stays suspended, or finishes; when it finishes, by exhaustion or by an
    exception, closing the cursor is its last engine call (unless the cursor
    could not be opened).  A finished generator makes no engine call. *)
Theorem generator_releases_cursor (yield_ : Engine.cursor → M WiredTigerDBM.item)
    (g : WiredTigerDBM.generator) (s : Engine.state) :
  let '(r, g', s') := WiredTigerDBM.generator_next yield_ g s in
  match g' with
  | WiredTigerDBM.Created => False
  | WiredTigerDBM.Suspended _ => ∃ x, r = Ok (Some x)
  | WiredTigerDBM.Finished =>
      (g = WiredTigerDBM.Finished ∧ r = Ok None ∧ s' = s)
      ∨ (g ≠ WiredTigerDBM.Finished ∧ releases_cursor false s s')
  end.
Proof.
  unfold WiredTigerDBM.generator_next.
  assert (∀ c s0, let '(r, g', s') := WiredTigerDBM.resume yield_ c s0 in
            match g' with
            | WiredTigerDBM.Created => False
            | WiredTigerDBM.Suspended _ => ∃ x, r = Ok (Some x)
            | WiredTigerDBM.Finished =>
                ∃ o, last (Engine.log s') = Some (Engine.CallCursorClose, o)
            end) as Hres.
  { intros c s0. unfold WiredTigerDBM.resume.
    cbv zeta.
    destruct ((engine_status (Engine.next c) ≫= _) s0) as [[[[x c']|]|e] s1].
    - eauto.
    - cbv beta iota zeta delta [try_finally mret M_ret].
      destruct (WiredTigerDBM.finally_close c s1) as [rf s2] eqn:Hf.
      apply finally_close_inv in Hf as (o & Hlog & _).
      destruct rf; exists o; rewrite Hlog; apply last_snoc.
    - cbv beta iota zeta delta [try_finally raise].
      destruct (WiredTigerDBM.finally_close c s1) as [rf s2] eqn:Hf.
      apply finally_close_inv in Hf as (o & Hlog & _).
      destruct rf; exists o; rewrite Hlog; apply last_snoc. }
  destruct g as [|c|].
  - destruct (engine_handle (Engine.open_cursor false) s) as [[c|e] s1] eqn:Ho.
    + specialize (Hres c s1).
      destruct (WiredTigerDBM.resume yield_ c s1) as [[r g'] s'].
      destruct g'; [done|done|]. right. split; [done|]. right. done.
    + right. split; [done|]. left.
      apply engine_handle_inv in Ho as (oo & x & Ho & Hoo).
      apply open_cursor_event in Ho as [Hlog1 _].
      destruct oo as [z|m]; [discriminate|]. eauto.
  - specialize (Hres c s).
    destruct (WiredTigerDBM.resume yield_ c s) as [[r g'] s'].
    destruct g'; [done|done|]. right. split; [done|]. right. done.
  - left. done.
Qed.

(** X14: when the call that follows the opening of the cursor ([search], or
    [remove] in the deletion) answers with a status that is neither 0 nor
    [WT_NOTFOUND], then lookup, membership test, deletion, [get] and [pop]
    all raise [error] with the text [Unknown return code: ] and the status;
    the deletion has removed nothing. *)
Theorem unknown_status_is_error (self : store) (key : pyval)
    (default : option pyval) (k : bytes) (code : Z) (read_only : bool)
    (t : gmap string string) :
  pre_key self key = Ok k → code ≠ 0 → code ≠ Engine.WT_NOTFOUND →
  let s := store_state read_only t [None; Some (Engine.FaultCode code)] in
  let failure (A : Type) : result A :=
    Raise (error ("Unknown return code: " +:+ string_of_Z code)) in
  fst (WiredTigerDBM.__getitem__ self key s) = failure pyval
  ∧ fst (WiredTigerDBM.__contains__ self key s) = failure bool
  ∧ fst (WiredTigerDBM.__delitem__ self key s) = failure unit
  ∧ fst (WiredTigerDBM.get self key default s) = failure pyval
  ∧ fst (WiredTigerDBM.pop self key default s) = failure pyval
  ∧ Engine.table (snd (WiredTigerDBM.__delitem__ self key s)) = Some t.
Proof.
  intros Hk H0 Hn s failure. subst s failure. apply Z.eqb_neq in H0, Hn.
  unfold WiredTigerDBM.__getitem__, WiredTigerDBM.__contains__,
    WiredTigerDBM.__delitem__, WiredTigerDBM.get, WiredTigerDBM.pop, store_state.
  exec. rewrite Hk. exec. rewrite H0. cbn. rewrite H0, Hn. repeat split.
Qed.

Lemma unknown_status_is_error_witness :
  let s := store_state false sample_table [None; Some (Engine.FaultCode 5)] in
  let failure (A : Type) : result A :=
    Raise (error ("Unknown return code: " +:+ string_of_Z 5)) in
  fst (WiredTigerDBM.__getitem__ WiredTigerDBM.cls (PyBytes "asd1") s) = failure pyval
  ∧ fst (WiredTigerDBM.__contains__ WiredTigerDBM.cls (PyBytes "asd1") s) = failure bool
  ∧ fst (WiredTigerDBM.__delitem__ WiredTigerDBM.cls (PyBytes "asd1") s) = failure unit
  ∧ fst (WiredTigerDBM.get WiredTigerDBM.cls (PyBytes "asd1") None s) = failure pyval
  ∧ fst (WiredTigerDBM.pop WiredTigerDBM.cls (PyBytes "asd1") None s) = failure pyval
  ∧ Engine.table (snd (WiredTigerDBM.__delitem__ WiredTigerDBM.cls (PyBytes "asd1") s))
    = Some sample_table.
Proof.
  apply (unknown_status_is_error WiredTigerDBM.cls (PyBytes "asd1") None "asd1" 5
           false sample_table).
  - reflexivity.
  - discriminate.
  - discriminate.
Defined.

(** ** Iteration *)

(** After a successful [next] the cursor holds a key and a value. *)
Lemma next_positions_cursor (c c' : Engine.cursor) (s s' : Engine.state) :
  Engine.next c s = (Engine.Returned 0, c', s') →
  ∃ k v, Engine.key c' = Some k ∧ Engine.value c' = Some v.
Proof.
  destruct s, c. intros H. engine_case H; eauto; try discriminate.
Qed.

(** One step of [keys] and of [values] is the step of [items] with one
    component dropped. *)
Lemma resume_keys_values (c : Engine.cursor) (s : Engine.state) :
  WiredTigerDBM.resume (WiredTigerDBM.keys_yield WiredTigerDBM.cls) c s
  = map_step item_key
      (WiredTigerDBM.resume (WiredTigerDBM.items_yield WiredTigerDBM.cls) c s)
  ∧ WiredTigerDBM.resume (WiredTigerDBM.values_yield WiredTigerDBM.cls) c s
    = map_step item_value
        (WiredTigerDBM.resume (WiredTigerDBM.items_yield WiredTigerDBM.cls) c s).
Proof.
  unfold WiredTigerDBM.resume, WiredTigerDBM.keys_yield, WiredTigerDBM.items_yield,
    WiredTigerDBM.values_yield, engine_status, mbind, M_bind.
  destruct (Engine.next c s) as [[[code|msg] c'] s1] eqn:E.
  - destruct (Z.eqb_spec code 0) as [->|Hne].
    + apply next_positions_cursor in E as (k & v & Hk & Hv).
      unfold get_key, get_value. rewrite Hk, Hv. cbn. split; reflexivity.
    + destruct (Z.eqb code Engine.WT_NOTFOUND); cbn;
        destruct (WiredTigerDBM.finally_close c s1) as [[[]|e] s2];
        split; reflexivity.
  - cbn. destruct (WiredTigerDBM.finally_close c s1) as [[[]|e] s2];
      split; reflexivity.
Qed.

(** The same from every state of the generator. *)
Lemma next_keys_values (g : WiredTigerDBM.generator) (s : Engine.state) :
  WiredTigerDBM.keys_next WiredTigerDBM.cls g s
  = map_step item_key (WiredTigerDBM.items_next WiredTigerDBM.cls g s)
  ∧ WiredTigerDBM.values_next WiredTigerDBM.cls g s
    = map_step item_value (WiredTigerDBM.items_next WiredTigerDBM.cls g s).
Proof.
  unfold WiredTigerDBM.keys_next, WiredTigerDBM.items_next,
    WiredTigerDBM.values_next, WiredTigerDBM.generator_next.
  destruct g as [|c|].
  - destruct (engine_handle (Engine.open_cursor false) s) as [[c|e] s1].
    + apply resume_keys_values.
    + split; reflexivity.
  - apply resume_keys_values.
  - split; reflexivity.
Qed.

(** X18: on the base class, listing [keys()] gives the first components and
    listing [values()] the second components of listing [items()], with the
    same exception when the listing fails and the same engine state
    afterwards. *)
Theorem keys_and_values_follow_items (fuel : nat) (g : WiredTigerDBM.generator)
    (s : Engine.state) :
  WiredTigerDBM.list_ (WiredTigerDBM.keys_next WiredTigerDBM.cls) fuel g s
  = map_listing item_key
      (WiredTigerDBM.list_ (WiredTigerDBM.items_next WiredTigerDBM.cls) fuel g s)
  ∧ WiredTigerDBM.list_ (WiredTigerDBM.values_next WiredTigerDBM.cls) fuel g s
    = map_listing item_value
        (WiredTigerDBM.list_ (WiredTigerDBM.items_next WiredTigerDBM.cls) fuel g s).
Proof.
  revert g s. induction fuel as [|fuel IH]; intros g s; [split; reflexivity|].
  cbn [WiredTigerDBM.list_].
  destruct (next_keys_values g s) as [-> ->].
  destruct (WiredTigerDBM.items_next WiredTigerDBM.cls g s) as [[[[x|]|e] g1] s1];
    cbn; try (split; reflexivity).
  destruct (IH g1 s1) as [-> ->].
  destruct (WiredTigerDBM.list_ (WiredTigerDBM.items_next WiredTigerDBM.cls) fuel g1 s1)
    as [[[l|e]|] s2]; split; reflexivity.
Qed.

(** The byte order of the engine's keys is a strict total order. *)
Lemma string_compare_refl (a : string) : String.compare a a = Eq.
Proof.
  induction a as [|c a IH]; [reflexivity|]. cbn.
  unfold Ascii.compare. rewrite N.compare_refl. exact IH.
Qed.

Lemma string_compare_trans (a b c : string) :
  String.compare a b = Lt → String.compare b c = Lt → String.compare a c = Lt.
Proof.
  revert b c. induction a as [|x a IH]; intros [|y b] [|z c]; cbn;
    try discriminate; try reflexivity.
  unfold Ascii.compare.
  destruct (N.compare_spec (N_of_ascii x) (N_of_ascii y)) as [Hxy|Hxy|Hxy];
    destruct (N.compare_spec (N_of_ascii y) (N_of_ascii z)) as [Hyz|Hyz|Hyz];
    try discriminate; intros H1 H2.
  - rewrite Hxy, Hyz, N.compare_refl. eauto.
  - rewrite Hxy. by apply N.compare_lt_iff in Hyz as ->.
  - rewrite <- Hyz. by apply N.compare_lt_iff in Hxy as ->.
  - assert (N_of_ascii x < N_of_ascii z)%N as Hxz by (etrans; eassumption).
    by apply N.compare_lt_iff in Hxz as ->.
Qed.

Lemma ltb_irrefl (a : string) : String.ltb a a = false.
Proof. unfold String.ltb. by rewrite string_compare_refl. Qed.

Lemma ltb_trans (a b c : string) :
  String.ltb a b = true → String.ltb b c = true → String.ltb a c = true.
Proof.
  unfold String.ltb. intros H1 H2.
  destruct (String.compare a b) eqn:E1; try discriminate.
  destruct (String.compare b c) eqn:E2; try discriminate.
  by rewrite (string_compare_trans a b c).
Qed.

Lemma ltb_total (a b : string) :
  String.ltb a b = false → a ≠ b → String.ltb b a = true.
Proof.
  unfold String.ltb. rewrite (String.compare_antisym b a). intros H Hne.
  destruct (String.compare a b) eqn:E; try discriminate; [|reflexivity].
  by apply String.compare_eq_iff in E.
Qed.

(** Keys after a key that lies after the position lie after the position. *)
Lemma after_trans (pos : option bytes) (k k' : bytes) :
  after pos k = true → String.ltb k k' = true → after pos k' = true.
Proof. destruct pos as [p|]; [apply ltb_trans|reflexivity]. Qed.

(** [successor] returns the least entry after the position: every other
    entry after the position lies after the returned one; it returns
    nothing only when no entry is left. *)
Lemma successor_spec (l : list (bytes * bytes)) (pos : option bytes) :
  NoDup (l.*1) →
  match foldr (λ kv best,
                 if match pos with Some p => String.ltb p kv.1 | None => true end then
                   match best with
                   | Some b => if String.ltb kv.1 b.1 then Some kv else best
                   | None => Some kv
                   end
                 else best) None l with
  | None => ∀ kv, kv ∈ l → after pos kv.1 = false
  | Some b => b ∈ l ∧ after pos b.1 = true
              ∧ ∀ kv, kv ∈ l → after pos kv.1 = true →
                      kv = b ∨ String.ltb b.1 kv.1 = true
  end.
Proof.
  induction l as [|kv0 l IH]; intros Hnd; cbn [foldr].
  { intros kv Hin. inversion Hin. }
  cbn in Hnd. apply NoDup_cons in Hnd as [Hfresh Hnd]. specialize (IH Hnd).
  fold (after pos kv0.1).
  destruct (after pos kv0.1) eqn:Ha;
    destruct (foldr _ None l) as [b|] eqn:Hb.
  - destruct IH as (Hbin & Hba & Hmin).
    destruct (String.ltb kv0.1 b.1) eqn:Hlt.
    + split; [by left|]. split; [done|]. intros kv Hin Hkv.
      apply elem_of_cons in Hin as [->|Hin]; [by left|]. right.
      destruct (Hmin kv Hin Hkv) as [->|H]; [done|]. by eapply ltb_trans.
    + split; [by right|]. split; [done|]. intros kv Hin Hkv.
      apply elem_of_cons in Hin as [->|Hin]; [|by apply Hmin]. right.
      apply ltb_total; [done|]. intros Heq. apply Hfresh.
      rewrite Heq. by apply list_elem_of_fmap_2.
  - split; [by left|]. split; [done|]. intros kv Hin Hkv.
    apply elem_of_cons in Hin as [->|Hin]; [by left|].
    by rewrite (IH kv Hin) in Hkv.
  - destruct IH as (Hbin & Hba & Hmin). split; [by right|]. split; [done|].
    intros kv Hin Hkv. apply elem_of_cons in Hin as [->|Hin]; [congruence|].
    by apply Hmin.
  - intros kv Hin. apply elem_of_cons in Hin as [->|Hin]; [done|by apply IH].
Qed.

(** Moving the position to the least remaining key removes that key, and no
    other, from the entries still to come. *)
Lemma filter_without_least (l : list (bytes * bytes)) (pos : option bytes)
    (b : bytes * bytes) :
  NoDup (l.*1) → b ∈ l → after pos b.1 = true →
  (∀ kv, kv ∈ l → after pos kv.1 = true → kv = b ∨ String.ltb b.1 kv.1 = true) →
  List.filter (λ kv, after pos kv.1) l
  ≡ₚ b :: List.filter (λ kv, after (Some b.1) kv.1) l.
Proof.
  induction l as [|kv0 l IH]; intros Hnd Hin Hb Hmin; [inversion Hin|].
  cbn in Hnd. apply NoDup_cons in Hnd as [Hfresh Hnd].
  assert (∀ kv, kv ∈ l → after pos kv.1 = true →
                kv = b ∨ String.ltb b.1 kv.1 = true) as Hmin'
    by (intros kv Hkv; apply Hmin; by right).
  cbn [List.filter].
  destruct (decide (kv0 = b)) as [->|Hne].
  - rewrite Hb. cbn [after]. rewrite ltb_irrefl. f_equiv.
    clear IH Hin Hmin. induction l as [|kv l IHl]; [done|].
    cbn in Hfresh, Hnd. apply NoDup_cons in Hnd as [_ Hnd].
    apply not_elem_of_cons in Hfresh as [Hk Hfresh].
    cbn [List.filter].
    assert (after pos kv.1 = String.ltb b.1 kv.1) as ->.
    { destruct (after pos kv.1) eqn:Ha.
      - destruct (Hmin' kv ltac:(by left) Ha) as [->|H]; [done|by rewrite H].
      - destruct (String.ltb b.1 kv.1) eqn:Hl; [|done].
        by rewrite (after_trans pos b.1 kv.1 Hb Hl) in Ha. }
    assert (List.filter (λ kv, after pos kv.1) l
            ≡ₚ List.filter (λ kv, String.ltb b.1 kv.1) l) as IH'.
    { apply IHl; [done|done|]. intros kv' Hkv'. apply Hmin'. by right. }
    destruct (String.ltb b.1 kv.1); [by f_equiv|done].
  - apply elem_of_cons in Hin as [->|Hin]; [done|].
    specialize (IH Hnd Hin Hb Hmin').
    assert (after pos kv0.1 = String.ltb b.1 kv0.1) as ->.
    { destruct (after pos kv0.1) eqn:Ha.
      - destruct (Hmin kv0 ltac:(by left) Ha) as [->|H]; [done|by rewrite H].
      - destruct (String.ltb b.1 kv0.1) eqn:Hl; [|done].
        by rewrite (after_trans pos b.1 kv0.1 Hb Hl) in Ha. }
    cbn [after]. destruct (String.ltb b.1 kv0.1).
    + rewrite IH. apply Permutation_swap.
    + exact IH.
Qed.

(** Before the first [next] every entry is still to come. *)
Lemma filter_after_none (l : list (bytes * bytes)) :
  List.filter (λ kv, after None kv.1) l = l.
Proof. induction l as [|kv l IH]; [done|]. cbn [List.filter after]. by f_equal. Qed.

(** One unfolding of the listing loop. *)
Lemma items_step (t : gmap string string) pos ow k0 v0 h c ro tx n log :
  WiredTigerDBM.items_next WiredTigerDBM.cls
    (WiredTigerDBM.Suspended (Engine.mkCursor ow k0 v0 pos))
    (Engine.mkState h (Some t) c ro true tx (S n) [] log)
  = match Engine.successor t pos with
    | Some (k, v) =>
        (Ok (Some (entry_item (k, v))),
         WiredTigerDBM.Suspended (Engine.mkCursor ow (Some k) (Some v) (Some k)),
         Engine.mkState h (Some t) c ro true tx (S n) []
           (log ++ [(Engine.CallNext, Engine.Returned 0)]))
    | None =>
        (Ok None, WiredTigerDBM.Finished,
         Engine.mkState h (Some t) c ro true tx n []
           ((log ++ [(Engine.CallNext, Engine.Returned Engine.WT_NOTFOUND)])
            ++ [(Engine.CallCursorClose, Engine.Returned 0)]))
    end.
Proof.
  unfold WiredTigerDBM.items_next, WiredTigerDBM.generator_next,
    WiredTigerDBM.resume, WiredTigerDBM.items_yield.
  exec. destruct (Engine.successor t pos) as [[k v]|]; reflexivity.
Qed.

(** Listing from a suspended cursor gives the entries after its position, in
    key order. *)
Lemma scan_suspended (t : gmap string string) :
  ∀ (fuel : nat) pos ow k0 v0 h c ro tx n log,
    (length (List.filter (λ kv, after pos kv.1) (map_to_list t)) < fuel)%nat →
    ∃ kvs log',
      WiredTigerDBM.list_ (WiredTigerDBM.items_next WiredTigerDBM.cls) fuel
        (WiredTigerDBM.Suspended (Engine.mkCursor ow k0 v0 pos))
        (Engine.mkState h (Some t) c ro true tx (S n) [] log)
      = (Some (Ok (entry_item <$> kvs)),
         Engine.mkState h (Some t) c ro true tx n [] log')
      ∧ kvs ≡ₚ List.filter (λ kv, after pos kv.1) (map_to_list t)
      ∧ StronglySorted (λ a b, String.ltb a.1 b.1 = true) kvs.
Proof.
  induction fuel as [|fuel IH]; intros pos ow k0 v0 h c ro tx n log Hlen; [lia|].
  pose proof (successor_spec (map_to_list t) pos (NoDup_fst_map_to_list t)) as Hs.
  change (foldr _ None (map_to_list t)) with (Engine.successor t pos) in Hs.
  cbn [WiredTigerDBM.list_]. rewrite items_step.
  destruct (Engine.successor t pos) as [[k v]|].
  - destruct Hs as (Hin & Ha & Hmin).
    pose proof (filter_without_least _ pos (k, v) (NoDup_fst_map_to_list t)
                  Hin Ha Hmin) as Hperm.
    cbn [fst snd] in Hperm.
    assert (length (List.filter (λ kv, after (Some k) kv.1) (map_to_list t)) < fuel)%nat
      as Hlen'.
    { apply Permutation_length in Hperm. rewrite Hperm in Hlen.
      cbn [length] in Hlen. lia. }
    destruct (IH (Some k) ow (Some k) (Some v) h c ro tx n
                 (log ++ [(Engine.CallNext, Engine.Returned 0)])%list Hlen')
      as (kvs & log' & Hrun & Hkvs & Hsorted).
    rewrite Hrun. exists ((k, v) :: kvs), log'.
    split; [reflexivity|]. split; [by rewrite Hperm, Hkvs|].
    constructor; [done|].
    rewrite Hkvs. apply Forall_forall. intros kv Hkv.
    apply list_elem_of_In, filter_In in Hkv as [_ Hkv]. exact Hkv.
  - eexists [], _. split; [reflexivity|]. split; [|constructor].
    assert (List.filter (λ kv, after pos kv.1) (map_to_list t) = []) as ->; [|done].
    clear -Hs. induction (map_to_list t) as [|kv l IHl]; [done|].
    cbn [List.filter]. rewrite (Hs kv) by (by left).
    apply IHl. intros kv' Hkv'. apply Hs. by right.
Qed.

(** Listing from a fresh generator opens the cursor and scans from the start. *)
Lemma items_created (t : gmap string string) h c ro tx n log :
  WiredTigerDBM.items_next WiredTigerDBM.cls WiredTigerDBM.Created
    (Engine.mkState h (Some t) c ro true tx n [] log)
  = WiredTigerDBM.items_next WiredTigerDBM.cls
      (WiredTigerDBM.Suspended (Engine.mkCursor false None None None))
      (Engine.mkState h (Some t) c ro true tx (S n) []
         (log ++ [(Engine.CallOpenCursor false, Engine.Returned 0)])).
Proof. reflexivity. Qed.

(** X19: listing [items()] of a readable store terminates and yields every
    entry of the table exactly once, as bytes pairs in ascending key order;
    the table is unchanged and the cursor is closed again. *)
Theorem items_lists_every_entry (t : gmap string string) (s : Engine.state)
    (fuel : nat) :
  readable s t → (size t < fuel)%nat →
  ∃ kvs s',
    WiredTigerDBM.list_ (WiredTigerDBM.items_next WiredTigerDBM.cls) fuel
      WiredTigerDBM.Created s
    = (Some (Ok (entry_item <$> kvs)), s')
    ∧ kvs ≡ₚ map_to_list t
    ∧ StronglySorted (λ a b, String.ltb a.1 b.1 = true) kvs
    ∧ Engine.table s' = Some t
    ∧ Engine.cursors s' = Engine.cursors s.
Proof.
  intros (Hs & Ht & Hf) Hsize. destruct s; simpl in *; subst.
  destruct fuel as [|fuel]; [lia|].
  destruct (scan_suspended t (S fuel) None false None None home conn readonly txn
              cursors (log ++ [(Engine.CallOpenCursor false, Engine.Returned 0)])%list)
    as (kvs & log' & Hrun & Hkvs & Hsorted).
  { rewrite filter_after_none, length_map_to_list. exact Hsize. }
  rewrite filter_after_none in Hkvs.
  exists kvs. eexists. split.
  - rewrite <- Hrun. cbn [WiredTigerDBM.list_]. by rewrite items_created.
  - split; [exact Hkvs|]. split; [exact Hsorted|]. split; reflexivity.
Qed.

Lemma items_lists_every_entry_witness :
  ∃ kvs s',
    WiredTigerDBM.list_ (WiredTigerDBM.items_next WiredTigerDBM.cls) 2
      WiredTigerDBM.Created (store_state false sample_table [])
    = (Some (Ok (entry_item <$> kvs)), s')
    ∧ kvs ≡ₚ map_to_list sample_table
    ∧ StronglySorted (λ a b, String.ltb a.1 b.1 = true) kvs
    ∧ Engine.table s' = Some sample_table
    ∧ Engine.cursors s' = Engine.cursors (store_state false sample_table []).
Proof.
  apply (items_lists_every_entry sample_table (store_state false sample_table []) 2).
  - repeat split.
  - unfold sample_table. rewrite map_size_singleton. lia.
Defined.
